(** * SmartDocAI: the context chatbot of [server/script.py]

    A shallow embedding of [ContextChatbot] and of the command line entry
    point [main], together with the properties of the retrieval pipeline
    that the design document states about them.

    Python values are modelled as follows: [str] as [string] (one unit per
    character, with a code below 256), the text that the splitter cuts as
    a list of code points, [dict] used as document metadata as
    [gmap string string], a
    [dict] that is printed as JSON as an association list in insertion
    order, [None]-able attributes as [option], exceptions as the error side
    of a state-and-exception monad whose state survives a raise. *)

From Stdlib Require Import String Ascii List ZArith Lia Bool.
From stdpp Require Import base gmap strings list pretty.

Local Open Scope string_scope.
Local Open Scope list_scope.

(** ** Python string helpers *)

Definition nl : string := String (ascii_of_nat 10) EmptyString.

(** [s[:n]] *)
Definition py_slice_to (n : nat) (s : string) : string := substring 0 n s.

(** [s[n:]] *)
Fixpoint py_slice_from (n : nat) (s : string) : string :=
  match n, s with
  | O, _ => s
  | S _, EmptyString => EmptyString
  | S n', String _ s' => py_slice_from n' s'
  end.

(** [s.startswith(p)] *)
Definition startswith (s p : string) : bool := String.prefix p s.

(** ['/' in s] *)
Fixpoint contains_slash (s : string) : bool :=
  match s with
  | EmptyString => false
  | String c s' => if Ascii.eqb c "/" then true else contains_slash s'
  end.

(** [s.split('/', 1)] on a string that contains a slash: the text before
    the first slash and the text after it. *)
Fixpoint split_first_slash (s : string) : string * string :=
  match s with
  | EmptyString => (EmptyString, EmptyString)
  | String c s' =>
      if Ascii.eqb c "/" then (EmptyString, s')
      else let '(a, b) := split_first_slash s' in (String c a, b)
  end.

(** [os.path.basename(p)]: what follows the last slash. *)
Fixpoint basename (p : string) : string :=
  match p with
  | EmptyString => EmptyString
  | String c p' =>
      if Ascii.eqb c "/" then basename p'
      else if contains_slash p' then basename p' else p
  end.

Definition ends_with_slash (p : string) : bool :=
  match get (String.length p - 1) p with
  | Some c => Ascii.eqb c "/"
  | None => false
  end.

(** [os.path.join(a, b)] *)
Definition path_join (a b : string) : string :=
  if startswith b "/" then b
  else if (String.eqb a EmptyString || ends_with_slash a)%bool then a +:+ b
  else a +:+ "/" +:+ b.

(** The lower case of a character with a code below 256: the letters A
    to Z and the capital letters U+00C0 to U+00DE, the sign U+00D7 apart. *)
Definition lower_ascii (c : ascii) : ascii :=
  let n := nat_of_ascii c in
  if ((65 <=? n)%nat && (n <=? 90)%nat
      || (192 <=? n)%nat && (n <=? 222)%nat && negb (n =? 215)%nat)%bool
  then ascii_of_nat (n + 32) else c.

(** [s.lower()] *)
Fixpoint lower (s : string) : string :=
  match s with
  | EmptyString => EmptyString
  | String c s' => String (lower_ascii c) (lower s')
  end.

(** Position of the last dot of [s] counted from the left, if any. *)
Fixpoint last_dot (s : string) (i : nat) (found : option nat) : option nat :=
  match s with
  | EmptyString => found
  | String c s' =>
      last_dot s' (S i) (if Ascii.eqb c "." then Some i else found)
  end.

(** [Path(p).name] and [Path(p).suffix] for a path as [Path] prints it,
    that is without trailing slash: the suffix starts at the last dot of
    the name, unless that dot is the first or the last character of the
    name. *)
Definition path_name (p : string) : string := basename p.

Definition path_suffix (p : string) : string :=
  let name := path_name p in
  match last_dot name 0 None with
  | Some i =>
      if ((0 <? i)%nat && (S i <? String.length name)%nat)%bool
      then py_slice_from i name else EmptyString
  | None => EmptyString
  end.

(** ** Documents *)

(** [langchain.schema.Document]: the text and its metadata dictionary. *)
Record Document := mkDocument {
  page_content : string;
  metadata : gmap string string
}.

(** ** The text splitter

    [process_documents] builds
    [RecursiveCharacterTextSplitter(chunk_size=1000, chunk_overlap=200,
    length_function=len)] and calls [split_documents]. The class is
    library code: the repository holds its configuration only. The model
    follows the chunker of the design document (recursive splitting on
    prioritized separators, greedy packing, overlap) and, where that
    description is silent, the library: separators stay at the start of
    the piece that follows them, chunks are stripped of white space, and
    pieces are never cut, so that the overlap carried into the next chunk
    is made of whole trailing pieces. *)

Module TextSplitter.

Local Open Scope nat_scope.

(** A Python [str] is a sequence of code points and [len] counts them:
    the splitter works on code points of any size. *)
Definition codepoint := N.
Definition text := list codepoint.

(** A document text, one code point for each character of the string, and
    back. *)
Definition of_string (s : string) : text :=
  map N_of_ascii (list_ascii_of_string s).

Definition to_string (t : text) : string :=
  string_of_list_ascii (map ascii_of_N t).

Definition chunk_size : nat := 1000.
Definition chunk_overlap : nat := 200.

(** The prioritized separators: paragraph, line, word, character. *)
Definition separators : list text :=
  [ [10; 10]; [10]; [32]; [] ]%N.

(** The white space of [str.strip()]: U+0009..U+000D, U+001C..U+0020,
    U+0085, U+00A0, U+1680, U+2000..U+200A, U+2028, U+2029, U+202F, U+205F
    and U+3000. *)
Definition is_space (c : codepoint) : bool :=
  ((9 <=? c) && (c <=? 13) || (28 <=? c) && (c <=? 32)
   || (c =? 133) || (c =? 160) || (c =? 5760)
   || (8192 <=? c) && (c <=? 8202)
   || (c =? 8232) || (c =? 8233) || (c =? 8239) || (c =? 8287)
   || (c =? 12288))%N.

Fixpoint lstrip (t : text) : text :=
  match t with
  | c :: t' => if is_space c then lstrip t' else t
  | [] => []
  end.

(** [t.strip()] *)
Definition strip (t : text) : text := rev (lstrip (rev (lstrip t))).

Fixpoint is_prefix (p t : text) : bool :=
  match p, t with
  | [], _ => true
  | _ :: _, [] => false
  | a :: p', b :: t' => (N.eqb a b && is_prefix p' t')%bool
  end.

(** Does the separator occur in the text? *)
Fixpoint occurs (sep t : text) : bool :=
  match t with
  | [] => is_prefix sep []
  | _ :: t' => (is_prefix sep t || occurs sep t')%bool
  end.

(** Splitting on a non-empty separator, each separator kept at the start
    of the piece that follows it. [skip] counts the characters of a
    matched separator still to be copied, [acc] is the piece being read,
    most recent character first. *)
Fixpoint split_keep (sep t : text) (skip : nat) (acc : text) : list text :=
  match t with
  | [] => [rev acc]
  | c :: t' =>
      match skip with
      | S k => split_keep sep t' k (c :: acc)
      | O =>
          if is_prefix sep t
          then rev acc :: split_keep sep t' (length sep - 1) [c]
          else split_keep sep t' 0 (c :: acc)
      end
  end.

Definition nonempty (t : text) : bool :=
  match t with [] => false | _ :: _ => true end.

(** The pieces of [t] for a separator: single characters for the empty
    separator; empty pieces are dropped. *)
Definition split_on (sep t : text) : list text :=
  match sep with
  | [] => map (fun c => [c]) t
  | _ :: _ => filter (fun p => nonempty p) (split_keep sep t 0 [])
  end.

(** [separator.join(docs)] *)
Fixpoint join (sep : text) (docs : list text) : text :=
  match docs with
  | [] => []
  | [d] => d
  | d :: ds => d ++ sep ++ join sep ds
  end.

(** The joined and stripped text of the pieces, [None] when it is empty. *)
Definition join_docs (sep : text) (docs : list text) : option text :=
  match strip (join sep docs) with
  | [] => None
  | c :: t => Some (c :: t)
  end.

(** The inner [while] of the packing: pieces are dropped from the front
    of the current chunk while it is longer than the overlap, or while
    the next piece of length [len] would not fit. *)
Fixpoint pop_front (sep_len len : nat) (current_doc : list text) (total : nat)
    : list text * nat :=
  match current_doc with
  | [] => ([], total)
  | d :: rest =>
      if ((chunk_overlap <? total) ||
          ((chunk_size <? total + len + sep_len) && (0 <? total)))%bool
      then pop_front sep_len len rest
             (total - (length d + (if 1 <? length current_doc then sep_len else 0)))
      else (current_doc, total)
  end.

(** The state of the packing loop: chunks emitted so far, pieces of the
    chunk being filled, and the tracked length of that chunk. *)
Record merge_state := mkMerge {
  docs : list text;
  current_doc : list text;
  total : nat
}.

Definition emit (sep : text) (cur : list text) (ds : list text) : list text :=
  match join_docs sep cur with
  | Some d => ds ++ [d]
  | None => ds
  end.

(** One iteration of the packing loop, for the piece [d]. *)
Definition merge_step (sep : text) (st : merge_state) (d : text) : merge_state :=
  let sep_len := length sep in
  let len := length d in
  let st' :=
    if chunk_size <? total st + len
                     + (if 0 <? length (current_doc st) then sep_len else 0)
    then
      match current_doc st with
      | [] => st
      | _ :: _ =>
          let ds := emit sep (current_doc st) (docs st) in
          let '(cur, tot) :=
            pop_front sep_len len (current_doc st) (total st) in
          mkMerge ds cur tot
      end
    else st in
  let cur := current_doc st' ++ [d] in
  mkMerge (docs st') cur
          (total st' + len + (if 1 <? length cur then sep_len else 0)).

(** Modelled from the spec: the packing loop of the splitter class, which
    is library code. Adjacent pieces are joined back up to the chunk size
    (greedy packing) and the trailing pieces of a chunk, up to
    [chunk_overlap] units, start the next one. *)
Definition merge_splits (splits : list text) (sep : text) : list text :=
  let st := fold_left (merge_step sep) splits (mkMerge [] [] 0) in
  emit sep (current_doc st) (docs st).

(** The loop over the pieces of one separator level: pieces shorter than
    the chunk size are collected and packed, a longer piece is split
    again with the remaining separators ([rec]), or kept whole when no
    separator remains. *)
Fixpoint split_pieces (rec : option (text -> list text)) (splits : list text)
    (good : list text) : list text :=
  match splits with
  | [] =>
      match good with
      | [] => []
      | _ :: _ => merge_splits good []
      end
  | s :: rest =>
      if length s <? chunk_size
      then split_pieces rec rest (good ++ [s])
      else
        (match good with
         | [] => []
         | _ :: _ => merge_splits good []
         end)
        ++ (match rec with
            | None => [s]
            | Some f => f s
            end)
        ++ split_pieces rec rest []
  end.

(** Modelled from the spec: the recursive splitting of the splitter
    class, which is library code. The first separator of the prioritized
    list that is empty or occurs in the text is used; when none does, the
    last one is used and no separator remains. *)
Fixpoint split_text_with (seps : list text) (last_sep : text) (t : text)
    : list text :=
  match seps with
  | [] => split_pieces None (split_on last_sep t) []
  | s :: rest =>
      match s with
      | [] => split_pieces None (split_on [] t) []
      | _ :: _ =>
          if occurs s t
          then split_pieces
                 (match rest with
                  | [] => None
                  | _ :: _ => Some (split_text_with rest last_sep)
                  end)
                 (split_on s t) []
          else split_text_with rest last_sep t
      end
  end.

Definition split_text (t : text) : list text :=
  split_text_with separators (List.last separators []) t.

(** Modelled from the spec: [split_documents] of the splitter class, which
    is library code. Every chunk carries a copy of its document's
    metadata. *)
Definition split_documents (documents : list Document) : list Document :=
  flat_map
    (fun d =>
       map (fun c => mkDocument (to_string c) (metadata d))
           (split_text (of_string (page_content d))))
    documents.

End TextSplitter.


(** ** Conversation memory

    [__init__] creates [ConversationBufferWindowMemory(k=10)]; the class
    itself is library code. *)

Module Memory.

Local Open Scope nat_scope.

(** One question/answer exchange. *)
Record Turn := mkTurn { turn_question : string; turn_answer : string }.

(** The cap and the turns kept, oldest first. *)
Record t := mkMemory { k : nat; turns : list Turn }.

(** The memory a chatbot starts with: [k=10], "keep last 10 exchanges". *)
Definition create : t := mkMemory 10 [].

(** [__init__] gives the memory a [memory_key] and no [output_key]. *)
Definition output_key : option string := None.

(** Modelled from the spec: the window memory class is not part of the
    repository. Memory is an ordered sequence capped at K turns;
    insertion evicts the oldest turn once the cap is exceeded (FIFO). *)
Definition append (m : t) (x : Turn) : t :=
  let turns' := turns m ++ [x] in
  mkMemory (k m) (if k m <? length turns' then tail turns' else turns').

(** Modelled from the spec: [window()] reads the turns oldest first. *)
Definition window (m : t) : list Turn := turns m.

(** Modelled from the spec: [clear()] resets to empty. *)
Definition clear (m : t) : t := mkMemory (k m) [].

Definition appends (m : t) (xs : list Turn) : t := fold_left append xs m.

End Memory.

(** ** Exceptions and results of external calls *)

Inductive exn_class := ValueError | ClientError | NoCredentialsError | OtherError.

Inductive exn :=
| Exception (cls : exn_class) (msg : string)
| SystemExit (code : Z).

(** What a call into a library or a remote service gives back. *)
Inductive result (A : Type) :=
| Ok (a : A)
| Raise (cls : exn_class) (msg : string).
Arguments Ok {A} a.
Arguments Raise {A} cls msg.

(** ** The embedding index *)

Definition vector := list Z.

(** One stored chunk: its position at build time, its embedding and the
    chunk itself. *)
Record VectorRecord := mkRecord {
  chunk_id : nat;
  embedding : vector;
  chunk : Document
}.

Definition Index := list VectorRecord.

(** Squared Euclidean distance, coordinate by coordinate. *)
Fixpoint distance (u v : vector) : Z :=
  match u, v with
  | x :: u', y :: v' => ((x - y) * (x - y) + distance u' v')%Z
  | _, _ => 0%Z
  end.

(** Stable insertion by distance: a record goes before those that are at
    least as far. The index is folded from its last record on, so that
    records at the same distance come out in the order of insertion. *)
Fixpoint insert_by (q : vector) (r : VectorRecord) (l : list VectorRecord)
    : list VectorRecord :=
  match l with
  | [] => [r]
  | r' :: l' =>
      if (distance q (embedding r) <=? distance q (embedding r'))%Z
      then r :: l
      else r' :: insert_by q r l'
  end.

Definition closest_first (q : vector) (ix : Index) : list VectorRecord :=
  fold_right (insert_by q) [] ix.

(** ** Values printed as JSON *)

Record SourceInfo := mkSource {
  content : string;
  source_metadata : gmap string string
}.

Record S3Object := mkS3Object {
  key : string;
  size : Z;
  last_modified : string;
  s3_path : string
}.

Inductive value :=
| VStr (s : string)
| VInt (n : Z)
| VSources (l : list SourceInfo)
| VObjects (l : list S3Object).

(** A [dict] with string keys, in insertion order. *)
Definition dict := list (string * value).

Fixpoint dict_get (d : dict) (key : string) : option value :=
  match d with
  | [] => None
  | (k, v) :: d' => if String.eqb k key then Some v else dict_get d' key
  end.

(** [d[key] = v] *)
Fixpoint dict_set (d : dict) (key : string) (v : value) : dict :=
  match d with
  | [] => [(key, v)]
  | (k, v') :: d' =>
      if String.eqb k key then (k, v) :: d' else (k, v') :: dict_set d' key v
  end.

(** [key in d] *)
Definition dict_has (d : dict) (key : string) : bool :=
  match dict_get d key with Some _ => true | None => false end.

(** ** External collaborators

    The services the chatbot calls: the embedding and language models,
    the index serialization, the document loaders, the object store and
    the process environment. *)

Inductive Loader :=
| PyPDFLoader | TextLoader | CSVLoader
| UnstructuredWordDocumentLoader | UnstructuredExcelLoader.

Class Capabilities := {
  (** [GoogleGenerativeAIEmbeddings]: text to vector *)
  embed : string -> result vector;
  (** [GoogleGenerativeAI]: prompt to text *)
  llm : string -> result string;
  (** the persisted form of an index, an opaque blob: what [save_local]
      writes and what [load_local] makes of it *)
  blob : Type;
  serialize : Index -> blob;
  deserialize : blob -> result Index;
  (** [loader.load()] on the bytes of a file *)
  loader_load : Loader -> string -> string -> result (list Document);
  (** [head_object]: the content length *)
  head_object : string -> string -> result Z;
  (** [download_file]: the bytes of the object *)
  download_file : string -> string -> result string;
  (** [list_objects_v2]: the [Contents] entry of the response, if any *)
  list_objects_v2 :
    string -> string -> Z -> result (option (list (string * Z * string)));
  (** [tempfile.mkdtemp()] *)
  mkdtemp : string;
  (** [os.getenv] *)
  getenv : string -> option string;
  (** whether [boto3] finds default credentials *)
  default_credentials : bool
}.

(** What the process prints: a line of text or a JSON document. *)
Inductive out :=
| Line (s : string)
| Json (d : dict).

(** How a computation ends: with a value or with a raised exception. *)
Inductive outcome (A : Type) :=
| Return (a : A)
| Throw (e : exn).
Arguments Return {A} a.
Arguments Throw {A} e.

Section Model.

Context `{Capabilities}.

(** *** Index build and retrieval *)

Fixpoint embed_documents (texts : list Document) (next_id : nat)
    : result (list VectorRecord) :=
  match texts with
  | [] => Ok []
  | d :: rest =>
      match embed (page_content d) with
      | Raise cls msg => Raise cls msg
      | Ok v =>
          match embed_documents rest (S next_id) with
          | Raise cls msg => Raise cls msg
          | Ok rs => Ok (mkRecord next_id v d :: rs)
          end
      end
  end.

(** Modelled from the spec: [FAISS.from_documents] is library code. Build
    embeds every chunk exactly once and fails with [EmptyCorpus] if
    there is no chunk. *)
Definition from_documents (texts : list Document) : result Index :=
  match texts with
  | [] => Raise OtherError "EmptyCorpus"
  | _ :: _ => embed_documents texts 0
  end.

(** Modelled from the spec: retrieval is library code. The [k] closest
    records, closest first, ties in insertion order. *)
Definition retrieve (ix : Index) (query_text : string) (k : nat)
    : result (list VectorRecord) :=
  match embed query_text with
  | Raise cls msg => Raise cls msg
  | Ok q => Ok (take k (closest_first q ix))
  end.

(** *** The question answering chain *)

(** [ConversationalRetrievalChain.from_llm(retriever=
    vectorstore.as_retriever(search_kwargs={"k": 5}), memory=self.memory,
    return_source_documents=True)]: the chain holds the index it was
    made from; its memory is the chatbot's own memory object. *)
Record Chain := mkChain { retriever : Index; search_k : nat }.

Definition from_llm (vectorstore : Index) : Chain := mkChain vectorstore 5.

Record Response := mkResponse {
  response_answer : string;
  source_documents : option (list Document)
}.

(** The prompt template of [process_documents] and [load_vectorstore]. *)
Definition custom_prompt (context chat_history question : string) : string :=
  "You are an AI assistant that answers questions based on the provided context. " +:+ nl +:+
  "            Use the following context to answer the user's question. If the answer is not in the context, " +:+ nl +:+
  "            say that you don't have enough information to answer the question." +:+ nl +:+
  nl +:+
  "            Context: " +:+ context +:+ nl +:+
  "            Chat History: " +:+ chat_history +:+ nl +:+
  "            Question: " +:+ question +:+ nl +:+
  nl +:+
  "            Please provide a detailed and helpful answer based on the context:".

Fixpoint join_lines (sep : string) (l : list string) : string :=
  match l with
  | [] => EmptyString
  | [s] => s
  | s :: l' => s +:+ sep +:+ join_lines sep l'
  end.

Definition serialize_turn (x : Memory.Turn) : string :=
  "Human: " +:+ Memory.turn_question x +:+ nl +:+
  "Assistant: " +:+ Memory.turn_answer x.

(** The single prompt of a call: instruction, evidence, history window
    and question. *)
Definition build_prompt (evidence : list Document) (mem : Memory.t)
    (question : string) : string :=
  custom_prompt
    (join_lines (nl +:+ nl) (map page_content evidence))
    (join_lines nl (map serialize_turn (Memory.window mem)))
    question.

(** [return_source_documents=True] in [process_documents] and in
    [load_vectorstore]: the outputs of a call are the answer and the
    source documents. *)
Definition return_source_documents : bool := true.

Definition output_keys : list string :=
  "answer" :: (if return_source_documents then ["source_documents"] else []).

(** [str(outputs.keys())] *)
Definition show_keys (keys : list string) : string :=
  "dict_keys(["
  +:+ join_lines ", " (map (fun key => "'" +:+ key +:+ "'") keys) +:+ "])".

(** Modelled from the spec: [save_context] of the memory class, which is
    library code. The turn is appended; a memory without output key
    takes the only output of the chain and raises when there is more
    than one. *)
Definition save_context (mem : Memory.t) (question answer : string)
    (keys : list string) : result Memory.t :=
  match Memory.output_key, keys with
  | None, [_] | Some _, _ =>
      Ok (Memory.append mem (Memory.mkTurn question answer))
  | None, _ =>
      Raise ValueError ("One output key expected, got " +:+ show_keys keys)
  end.

(** Modelled from the spec: the chain call is library code. It retrieves
    the evidence, builds one prompt from the evidence, the history
    window and the question, invokes the language model once and then
    saves the turn to the memory; a failure, of the generation or of the
    save, leaves the memory as it was. The question is looked up as it
    is asked, which is what the chain does while the history is empty. *)
Definition chain_call (ch : Chain) (mem : Memory.t) (question : string)
    : result Response * Memory.t :=
  match retrieve (retriever ch) question (search_k ch) with
  | Raise cls msg => (Raise cls msg, mem)
  | Ok records =>
      let evidence := map chunk records in
      match llm (build_prompt evidence mem question) with
      | Raise cls msg => (Raise cls msg, mem)
      | Ok answer =>
          match save_context mem question answer output_keys with
          | Raise cls msg => (Raise cls msg, mem)
          | Ok mem' =>
              (Ok (mkResponse answer
                     (if return_source_documents then Some evidence else None)),
               mem')
          end
      end
  end.

(** *** The chatbot object and the world it runs in *)

Record ContextChatbot := mkChatbot {
  google_api_key : string;
  model_name : string;
  vectorstore : option Index;
  qa_chain : option Chain;
  memory : Memory.t;
  aws_region : string;
  s3_client : bool
}.

Record World := mkWorld {
  self : ContextChatbot;
  (** local files: path to bytes *)
  files : gmap string string;
  (** saved indexes: path to blob *)
  disk : gmap string blob;
  (** what the [print] calls of the program have written, in order; the
      trace that a chain built with [verbose=True] writes on its own
      while it runs is library output and is not recorded *)
  stdout : list out
}.

(** Computations of the chatbot: the world is threaded through and is
    kept as it is at the moment an exception is raised. *)
Definition M (A : Type) : Type := World -> outcome A * World.

Definition ret {A} (a : A) : M A := fun w => (Return a, w).

Definition bind {A B} (c : M A) (k : A -> M B) : M B :=
  fun w =>
    match c w with
    | (Return a, w') => k a w'
    | (Throw e, w') => (Throw e, w')
    end.

Definition throw {A} (e : exn) : M A := fun w => (Throw e, w).

(** [try: body except Exception as e: handler(str(e))]; [SystemExit]
    is not an [Exception] and passes through. *)
Definition try_except {A} (body : M A) (handler : exn_class -> string -> M A)
    : M A :=
  fun w =>
    match body w with
    | (Throw (Exception cls msg), w') => handler cls msg w'
    | r => r
    end.

(** [try: body finally: cleanup] *)
Definition finally {A} (body : M A) (cleanup : M unit) : M A :=
  fun w =>
    match body w with
    | (r, w') =>
        match cleanup w' with
        | (Return _, w'') => (r, w'')
        | (Throw e, w'') => (Throw e, w'')
        end
    end.

(** A call into a library: its result or its exception. *)
Definition call {A} (r : result A) : M A :=
  match r with
  | Ok a => ret a
  | Raise cls msg => throw (Exception cls msg)
  end.

Definition get_self : M ContextChatbot := fun w => (Return (self w), w).

Definition modify_self (f : ContextChatbot -> ContextChatbot) : M unit :=
  fun w => (Return tt, mkWorld (f (self w)) (files w) (disk w) (stdout w)).

Definition print (s : string) : M unit :=
  fun w => (Return tt, mkWorld (self w) (files w) (disk w) (stdout w ++ [Line s])).

Definition print_json (d : dict) : M unit :=
  fun w => (Return tt, mkWorld (self w) (files w) (disk w) (stdout w ++ [Json d])).

Definition set_vectorstore (v : option Index) (cb : ContextChatbot) :=
  mkChatbot (google_api_key cb) (model_name cb) v (qa_chain cb) (memory cb)
            (aws_region cb) (s3_client cb).

Definition set_qa_chain (c : option Chain) (cb : ContextChatbot) :=
  mkChatbot (google_api_key cb) (model_name cb) (vectorstore cb) c (memory cb)
            (aws_region cb) (s3_client cb).

Definition set_memory (m : Memory.t) (cb : ContextChatbot) :=
  mkChatbot (google_api_key cb) (model_name cb) (vectorstore cb) (qa_chain cb) m
            (aws_region cb) (s3_client cb).

End Model.

Declare Scope chatbot_scope.
Delimit Scope chatbot_scope with chatbot.
Notation "x <~ c ;; k" := (bind c (fun x => k))
  (at level 100, c at next level, right associativity) : chatbot_scope.
Notation "c ;;; k" := (bind c (fun _ => k))
  (at level 100, right associativity) : chatbot_scope.

Section Operations.

Context `{Capabilities}.

Local Open Scope chatbot_scope.

Definition write_file (path bytes : string) : M unit :=
  fun w => (Return tt,
            mkWorld (self w) (<[path := bytes]> (files w)) (disk w) (stdout w)).

Definition read_file (path : string) : M (option string) :=
  fun w => (Return (files w !! path), w).

(** [shutil.rmtree(dir)]: the files below [dir] are gone. *)
Definition rmtree (dir : string) : M unit :=
  fun w => (Return tt,
            mkWorld (self w)
                    (filter (fun kv => negb (startswith (fst kv) (dir +:+ "/")) = true)
                            (files w))
                    (disk w) (stdout w)).

Definition nonempty_list {A} (l : list A) : bool :=
  match l with [] => false | _ :: _ => true end.

(** *** [download_from_s3] *)

(** The body of the loop for one path; [local_files] is the list built
    so far. *)
Definition download_one (temp_dir : string) (local_files : list string)
    (s3_path0 : string) : M (list string) :=
  let s3_path :=
    if startswith s3_path0 "s3://" then py_slice_from 5 s3_path0 else s3_path0 in
  try_except
    (if negb (contains_slash s3_path)
     then print ("⚠️  Invalid S3 path format: " +:+ s3_path) ;;; ret local_files
     else
       let '(bucket_name, key) := split_first_slash s3_path in
       found <~
         try_except
           (file_size <~ call (head_object bucket_name key) ;;
            print ("📁 Found S3 file: " +:+ key +:+ " (" +:+ pretty file_size
                     +:+ " bytes)") ;;;
            ret true)
           (fun cls msg =>
              match cls with
              | ClientError =>
                  print ("❌ File not found in S3: " +:+ s3_path +:+ " - " +:+ msg) ;;;
                  ret false
              | _ => throw (Exception cls msg)
              end) ;;
       if negb found then ret local_files
       else
         let filename :=
           let b := basename key in
           if String.eqb b EmptyString
           then "s3_file_" +:+ pretty (length local_files) +:+ ".bin"
           else b in
         let local_path := path_join temp_dir filename in
         print ("⬇️  Downloading " +:+ s3_path +:+ " to " +:+ local_path) ;;;
         bytes <~ call (download_file bucket_name key) ;;
         write_file local_path bytes ;;;
         print ("✅ Downloaded: " +:+ filename) ;;;
         ret (local_files ++ [local_path]))
    (fun cls msg =>
       match cls with
       | ClientError =>
           print ("❌ AWS S3 error for " +:+ s3_path +:+ ": " +:+ msg) ;;;
           ret local_files
       | _ =>
           print ("❌ Error downloading " +:+ s3_path +:+ ": " +:+ msg) ;;;
           ret local_files
       end).

Fixpoint for_each {A B} (body : B -> A -> M B) (l : list A) (acc : B) : M B :=
  match l with
  | [] => ret acc
  | x :: l' => acc' <~ body acc x ;; for_each body l' acc'
  end.

Definition download_from_s3 (s3_paths : list string) (temp_dir : string)
    : M (list string) :=
  cb <~ get_self ;;
  if negb (s3_client cb)
  then throw (Exception ValueError
                "S3 client not initialized. Please check AWS credentials.")
  else for_each (download_one temp_dir) s3_paths [].

(** *** [list_s3_objects] *)

Definition list_s3_objects (bucket_name prefix : string) (max_keys : Z)
    : M (list S3Object) :=
  cb <~ get_self ;;
  if negb (s3_client cb)
  then throw (Exception ValueError
                "S3 client not initialized. Please check AWS credentials.")
  else
    try_except
      (response <~ call (list_objects_v2 bucket_name prefix max_keys) ;;
       let objects :=
         match response with
         | Some contents =>
             map (fun '(k, sz, lm) =>
                    mkS3Object k sz lm (bucket_name +:+ "/" +:+ k))
                 contents
         | None => []
         end in
       print ("📋 Found " +:+ pretty (length objects) +:+ " objects in s3://"
                +:+ bucket_name +:+ "/" +:+ prefix) ;;;
       ret objects)
      (fun cls msg =>
         match cls with
         | ClientError =>
             print ("❌ Error listing S3 objects: " +:+ msg) ;;; ret []
         | _ => throw (Exception cls msg)
         end).

(** *** [load_documents] *)

Definition select_loader (extension : string) : option Loader :=
  if String.eqb extension ".pdf" then Some PyPDFLoader
  else if String.eqb extension ".txt" then Some TextLoader
  else if String.eqb extension ".csv" then Some CSVLoader
  else if (String.eqb extension ".doc" || String.eqb extension ".docx")%bool
  then Some UnstructuredWordDocumentLoader
  else if (String.eqb extension ".xls" || String.eqb extension ".xlsx")%bool
  then Some UnstructuredExcelLoader
  else None.

(** The first supplied S3 path whose basename is the name of the local
    file: the inner [for ... break]. *)
Definition original_s3_path (s3_paths : list string) (name : string)
    : option string :=
  List.find (fun p => String.eqb (basename p) name) s3_paths.

(** What the loop over [docs] does to one document of a downloaded
    file. *)
Definition tag_s3 (s3_paths : list string) (name : string) (doc : Document)
    : Document :=
  let md := <["source_type" := "s3"]> (metadata doc) in
  match original_s3_path s3_paths name with
  | Some p => mkDocument (page_content doc) (<["s3_path" := p]> md)
  | None => mkDocument (page_content doc) md
  end.

(** [temp_dir and str(file_path).startswith(temp_dir)] *)
Definition in_temp_dir (temp_dir : option string) (file_path : string) : bool :=
  match temp_dir with
  | Some d => (negb (String.eqb d EmptyString) && startswith file_path d)%bool
  | None => false
  end.

(** [p.split("/")]: the components of a path, [acc] being the component
    that is read. *)
Fixpoint split_slash (p : string) (acc : string) : list string :=
  match p with
  | EmptyString => [acc]
  | String c p' =>
      if Ascii.eqb c "/" then acc :: split_slash p' EmptyString
      else split_slash p' (acc +:+ String c EmptyString)
  end.

(** The number of slashes that a path starts with, and what follows
    them. *)
Fixpoint lstrip_slash (p : string) : nat * string :=
  match p with
  | String c p' =>
      if Ascii.eqb c "/"
      then let '(n, rest) := lstrip_slash p' in (S n, rest)
      else (O, p)
  | EmptyString => (O, EmptyString)
  end.

(** [str(Path(p))] on a POSIX system: the root, which is "//" for a path
    that starts with exactly two slashes and "/" for any other path that
    starts with a slash, then the components that are neither empty nor
    ".", joined by slashes; "." when that leaves nothing. *)
Definition str_path (p : string) : string :=
  let '(n, rest) := lstrip_slash p in
  let root :=
    match n with
    | 0%nat => EmptyString
    | 2%nat => "//"
    | _ => "/"
    end in
  let parts :=
    List.filter
      (fun c => negb (String.eqb c EmptyString || String.eqb c "."))
      (split_slash rest EmptyString) in
  let s := root +:+ join_lines "/" parts in
  if String.eqb s EmptyString then "." else s.

(** The body of the loop for one file, after its first statement
    [file_path = Path(file_path)]: [file_path] is the path as [Path]
    prints it, and [documents] is the list built so far. *)
Definition load_one (temp_dir : option string) (s3_paths : list string)
    (documents : list Document) (file_path : string) : M (list Document) :=
  try_except
    (bytes <~ read_file file_path ;;
     match bytes with
     | None =>
         print ("⚠️  File not found: " +:+ file_path) ;;; ret documents
     | Some bytes =>
         let extension := lower (path_suffix file_path) in
         match select_loader extension with
         | None =>
             print ("⚠️  Unsupported file format: " +:+ extension) ;;;
             ret documents
         | Some loader =>
             docs <~ call (loader_load loader file_path bytes) ;;
             let docs :=
               if in_temp_dir temp_dir file_path
               then map (tag_s3 s3_paths (path_name file_path)) docs
               else docs in
             print ("✅ Loaded " +:+ pretty (length docs) +:+ " documents from "
                      +:+ path_name file_path) ;;;
             ret (documents ++ docs)
         end
     end)
    (fun _ msg =>
       print ("❌ Error loading " +:+ file_path +:+ ": " +:+ msg) ;;;
       ret documents).

(** Returns the documents and the list [file_paths] as the call leaves
    it: the caller's list is extended in place by the downloaded
    files. *)
Definition load_documents (file_paths s3_paths : list string)
    : M (list Document * list string) :=
  cb <~ get_self ;;
  let temp_dir :=
    if (nonempty_list s3_paths && s3_client cb)%bool then Some mkdtemp else None in
  finally
    (file_paths <~
       match temp_dir with
       | Some d =>
           print ("📁 Created temporary directory: " +:+ d) ;;;
           downloaded_files <~ download_from_s3 s3_paths d ;;
           ret (file_paths ++ downloaded_files)
       | None => ret file_paths
       end ;;
     documents <~
       for_each
         (fun documents file_path =>
            load_one temp_dir s3_paths documents (str_path file_path))
         file_paths [] ;;
     ret (documents, file_paths))
    (match temp_dir with
     | Some d =>
         if negb (String.eqb d EmptyString)
         then rmtree d ;;; print ("🧹 Cleaned up temporary directory: " +:+ d)
         else ret tt
     | None => ret tt
     end).

(** *** [process_documents] *)

Definition process_documents (documents : list Document) : M unit :=
  match documents with
  | [] => print "❌ No documents to process"
  | _ :: _ =>
      let texts := TextSplitter.split_documents documents in
      print ("📄 Split documents into " +:+ pretty (length texts) +:+ " chunks") ;;;
      ix <~ call (from_documents texts) ;;
      modify_self (set_vectorstore (Some ix)) ;;;
      print "✅ Vector store created successfully" ;;;
      modify_self (set_qa_chain (Some (from_llm ix)))
  end.

(** *** [query] *)

(** [{"content": doc.page_content[:200] + "...", "metadata": doc.metadata}] *)
Definition source_info (doc : Document) : SourceInfo :=
  mkSource (py_slice_to 200 (page_content doc) +:+ "...") (metadata doc).

Definition query (question : string) : M dict :=
  cb <~ get_self ;;
  match qa_chain cb with
  | None =>
      ret [ ("answer", VStr "Please upload documents first before asking questions.");
            ("sources", VSources []);
            ("error", VStr "No documents loaded") ]
  | Some chain =>
      try_except
        (let '(r, mem) := chain_call chain (memory cb) question in
         modify_self (set_memory mem) ;;;
         response <~ call r ;;
         let sources :=
           match source_documents response with
           | Some docs => map source_info docs
           | None => []
           end in
         ret [ ("answer", VStr (response_answer response));
               ("sources", VSources sources);
               ("question", VStr question) ])
        (fun _ msg =>
           ret [ ("answer", VStr ("An error occurred while processing your question: "
                                   +:+ msg));
                 ("sources", VSources []);
                 ("error", VStr msg) ])
  end.

(** *** [reset_conversation], [save_vectorstore], [load_vectorstore] *)

Definition reset_conversation : M unit :=
  modify_self (fun cb => set_memory (Memory.clear (memory cb)) cb) ;;;
  print "🔄 Conversation history cleared".

(** Modelled from the spec: [save_local(path)] is library code. It stores
    the serialized index at the path. *)
Definition write_index (path : string) (b : blob) : M unit :=
  fun w => (Return tt,
            mkWorld (self w) (files w) (<[path := b]> (disk w)) (stdout w)).

(** Modelled from the spec: [FAISS.load_local(path, embeddings)] is
    library code. It reads the blob stored at the path and deserializes
    it; it raises when there is none or when the blob is not an index. *)
Definition load_local (path : string) : M Index :=
  fun w =>
    match disk w !! path with
    | None =>
        (Throw (Exception OtherError ("could not open " +:+ path)), w)
    | Some b => call (deserialize b) w
    end.

Definition save_vectorstore (path : string) : M unit :=
  cb <~ get_self ;;
  match vectorstore cb with
  | Some ix =>
      write_index path (serialize ix) ;;;
      print ("💾 Vector store saved to " +:+ path)
  | None => ret tt
  end.

Definition load_vectorstore (path : string) : M unit :=
  try_except
    (ix <~ load_local path ;;
     modify_self (set_vectorstore (Some ix)) ;;;
     modify_self (set_qa_chain (Some (from_llm ix))) ;;;
     print ("📚 Vector store loaded from " +:+ path))
    (fun _ msg => print ("❌ Error loading vector store: " +:+ msg)).

End Operations.

(** ** The command line *)

Inductive Action := Load | Query | Reset | ListS3.

Inductive OutputFormat := OutJson | OutText.

(** The parsed arguments of [main]; an option that was not given is
    [None]. *)
Record Args := mkArgs {
  action : Action;
  arg_files : option (list string);
  arg_s3_paths : option (list string);
  arg_s3_bucket : option string;
  arg_s3_prefix : option string;
  arg_question : option string;
  arg_api_key : option string;
  arg_aws_access_key : option string;
  arg_aws_secret_key : option string;
  arg_aws_region : option string;
  arg_output : OutputFormat
}.

(** What a run of the process leaves behind. *)
Record Run := mkRun {
  exit_code : Z;
  printed : list out
}.

Section Main.

Context `{Capabilities}.

Local Open Scope chatbot_scope.

(** Python truth of an optional string: [None] and [EmptyString] are false. *)
Definition truthy (o : option string) : bool :=
  match o with
  | Some s => negb (String.eqb s EmptyString)
  | None => false
  end.

(** [a or b] *)
Definition py_or (a b : option string) : option string :=
  if truthy a then a else b.

(** [l or []] *)
Definition or_empty (l : option (list string)) : list string :=
  match l with Some l => l | None => [] end.

Definition or_empty_string (o : option string) : string :=
  match py_or o (Some EmptyString) with Some s => s | None => EmptyString end.

(** [ContextChatbot.__init__]: what it prints and the new object, or the
    exception it raises. *)
Definition init (google_api_key aws_access_key aws_secret_key aws_region
                 : option string) : list out * result ContextChatbot :=
  let google_api_key := py_or google_api_key (getenv "GOOGLE_API_KEY") in
  let aws_access_key := py_or aws_access_key (getenv "AWS_ACCESS_KEY_ID") in
  let aws_secret_key := py_or aws_secret_key (getenv "AWS_SECRET_ACCESS_KEY") in
  let aws_region :=
    py_or aws_region
          (match getenv "AWS_DEFAULT_REGION" with
           | Some r => Some r
           | None => Some "us-east-1"
           end) in
  if negb (truthy google_api_key)
  then ([], Raise ValueError
              "Google API Key is required. Set GOOGLE_API_KEY environment variable.")
  else
    let '(client, line) :=
      if (truthy aws_access_key && truthy aws_secret_key)%bool
      then (true, "✅ AWS S3 client initialized successfully")
      else if default_credentials
      then (true, "✅ AWS S3 client initialized with default credentials")
      else (false, "⚠️  AWS credentials not found. S3 functionality will be disabled.") in
    ([Line line; Line "✅ Chatbot initialized successfully"],
     Ok (mkChatbot (or_empty_string google_api_key) "gemini-pro" None None
                   Memory.create (or_empty_string aws_region) client)).

(** The branch of [main] for the requested action: the result
    dictionary, or the exit it takes. *)
Definition run_action (args : Args) : M dict :=
  match action args with
  | Load =>
      let local_files := or_empty (arg_files args) in
      let s3_paths := or_empty (arg_s3_paths args) in
      if (negb (nonempty_list local_files) && negb (nonempty_list s3_paths))%bool
      then print "❌ No files or S3 paths provided for loading" ;;;
           throw (SystemExit 1)
      else
        r <~ load_documents local_files s3_paths ;;
        let '(documents, local_files) := r in
        process_documents documents ;;;
        ret [ ("status", VStr "success");
              ("message", VStr ("Successfully loaded " +:+ pretty (length documents)
                                  +:+ " documents"));
              ("documents_count", VInt (Z.of_nat (length documents)));
              ("local_files", VInt (Z.of_nat (length local_files)));
              ("s3_files", VInt (Z.of_nat (length s3_paths))) ]
  | Query =>
      if negb (truthy (arg_question args))
      then print "❌ No question provided" ;;; throw (SystemExit 1)
      else
        result <~ query (or_empty_string (arg_question args)) ;;
        ret (dict_set result "status" (VStr "success"))
  | Reset =>
      reset_conversation ;;;
      ret [ ("status", VStr "success");
            ("message", VStr "Conversation history cleared") ]
  | ListS3 =>
      if negb (truthy (arg_s3_bucket args))
      then print "❌ S3 bucket name required for list-s3 action" ;;;
           throw (SystemExit 1)
      else
        let bucket := or_empty_string (arg_s3_bucket args) in
        let prefix := or_empty_string (arg_s3_prefix args) in
        objects <~ list_s3_objects bucket prefix 100 ;;
        ret [ ("status", VStr "success");
              ("bucket", VStr bucket);
              ("prefix", VStr prefix);
              ("objects", VObjects objects);
              ("count", VInt (Z.of_nat (length objects))) ]
  end.

(** The text rendering of a result. *)
Definition print_text (result : dict) : M unit :=
  match dict_get result "answer" with
  | Some (VStr a) => print ("Answer: " +:+ a)
  | _ => ret tt
  end ;;;
  match dict_get result "message" with
  | Some (VStr m) => print m
  | _ => ret tt
  end ;;;
  match dict_get result "objects" with
  | Some (VObjects objs) =>
      print ("Found " +:+ pretty (length objs) +:+ " objects:") ;;;
      for_each (fun _ obj =>
                  print ("  - " +:+ key obj +:+ " (" +:+ pretty (size obj)
                           +:+ " bytes)"))
               objs tt
  | _ => ret tt
  end.

Definition output_result (args : Args) (result : dict) : M unit :=
  match arg_output args with
  | OutJson => print_json result
  | OutText => print_text result
  end.

(** The [except Exception] of [main]. *)
Definition error_result (msg : string) : dict :=
  [ ("status", VStr "error");
    ("error", VStr msg);
    ("message", VStr ("An error occurred: " +:+ msg)) ].

Definition report_error (args : Args) (msg : string) : list out :=
  match arg_output args with
  | OutJson => [Json (error_result msg)]
  | OutText => [Line ("❌ Error: " +:+ msg)]
  end.

(** [main], from the parsed arguments, the local files and the saved
    indexes. *)
Definition main (args : Args) (files0 : gmap string string)
    (disk0 : gmap string blob) : Run :=
  match init (arg_api_key args) (arg_aws_access_key args)
             (arg_aws_secret_key args) (arg_aws_region args) with
  | (lines, Raise _ msg) => mkRun 1 (lines ++ report_error args msg)
  | (lines, Ok chatbot) =>
      let body := result <~ run_action args ;; output_result args result in
      match body (mkWorld chatbot files0 disk0 lines) with
      | (Return _, w) => mkRun 0 (stdout w)
      | (Throw (SystemExit code), w) => mkRun code (stdout w)
      | (Throw (Exception _ msg), w) => mkRun 1 (stdout w ++ report_error args msg)
      end
  end.

(** The result dictionaries that a run printed. *)
Definition results_of (r : Run) : list dict :=
  flat_map (fun o => match o with Json d => [d] | Line _ => [] end) (printed r).

End Main.

(** ** A concrete set of collaborators

    Used to run the model on explicit inputs: the embedding of a text is
    its length, every file holds one document, the object store holds what
    [objects] says, and the language model is the given function. *)

Definition sample_caps (model : string -> result string)
    (objects : gmap string string) : Capabilities := {|
  embed := fun s => Ok [Z.of_nat (String.length s)];
  llm := model;
  blob := option Index;
  serialize := fun ix => Some ix;
  deserialize := fun b =>
    match b with
    | Some ix => Ok ix
    | None => Raise OtherError "corrupt index"
    end;
  loader_load := fun _ path bytes => Ok [mkDocument bytes {["source" := path]}];
  head_object := fun bucket k =>
    match objects !! (bucket +:+ "/" +:+ k) with
    | Some bytes => Ok (Z.of_nat (String.length bytes))
    | None => Raise ClientError "Not Found"
    end;
  download_file := fun bucket k =>
    match objects !! (bucket +:+ "/" +:+ k) with
    | Some bytes => Ok bytes
    | None => Raise ClientError "Not Found"
    end;
  list_objects_v2 := fun _ _ _ => Ok None;
  mkdtemp := "/tmp/tmpdocs";
  getenv := fun name =>
    if String.eqb name "GOOGLE_API_KEY" then Some "key" else None;
  default_credentials := true
|}.

(** A language model that is out of quota, and one that answers. *)
Definition failing_model : string -> result string :=
  fun _ => Raise OtherError "quota exceeded".

Definition answering_model : string -> result string :=
  fun _ => Ok "Paris".

Definition sample_chatbot `{Capabilities} (ix : option Index) : ContextChatbot :=
  mkChatbot "key" "gemini-pro" ix (from_llm <$> ix) Memory.create "us-east-1" true.

Definition sample_index : Index :=
  [ mkRecord 0 [30%Z] (mkDocument "Paris is the capital of France." {["source" := "a.txt"]});
    mkRecord 1 [29%Z] (mkDocument "Tokyo is the capital of Japan." {["source" := "b.txt"]}) ].

Definition sample_args (a : Action) (fs s3 : option (list string))
    (q : option string) : Args :=
  mkArgs a fs s3 None None q None None None (Some "us-east-1") OutJson.

(** ** Notions used in the statements *)

(** The JSON documents among what was printed, in order. *)
Definition jsons (l : list out) : list dict :=
  flat_map (fun o => match o with Json d => [d] | Line _ => [] end) l.

(** A path below the directory [dir]. *)
Definition under (dir path : string) : bool := startswith path (dir +:+ "/").

(** The temporary directory of a call of [load_documents], if it makes
    one: [s3_paths and self.s3_client]. *)
Definition staging_dir `{Capabilities} (cb : ContextChatbot)
    (s3_paths : list string) : option string :=
  if (nonempty_list s3_paths && s3_client cb)%bool then Some mkdtemp else None.

(** What one file contributes to a load, given the files present: nothing
    when it is missing, of an unsupported format or when its loader
    raises, else its documents, tagged when the file lies in the
    temporary directory. *)
Definition file_docs `{Capabilities} (temp_dir : option string)
    (s3_paths : list string) (fs : gmap string string) (file_path : string)
    : list Document :=
  match fs !! file_path with
  | None => []
  | Some bytes =>
      match select_loader (lower (path_suffix file_path)) with
      | None => []
      | Some loader =>
          match loader_load loader file_path bytes with
          | Raise _ _ => []
          | Ok docs =>
              if in_temp_dir temp_dir file_path
              then map (tag_s3 s3_paths (path_name file_path)) docs
              else docs
          end
      end
  end.

(** A path that [download_from_s3] stages: [os.path.join(temp_dir,
    filename)] for a file name that is not absolute. *)
Definition staged (temp_dir path : string) : Prop :=
  exists filename,
    path = path_join temp_dir filename /\ startswith filename "/" = false.

(** The object that an S3 path designates, when the path has a bucket and
    a key and both S3 calls succeed: its key and its bytes. *)
Definition fetched `{Capabilities} (s3_path : string) : option (string * string) :=
  let s3_path :=
    if startswith s3_path "s3://" then py_slice_from 5 s3_path else s3_path in
  if contains_slash s3_path
  then
    let '(bucket_name, key) := split_first_slash s3_path in
    match head_object bucket_name key with
    | Ok _ =>
        match download_file bucket_name key with
        | Ok bytes => Some (key, bytes)
        | Raise _ _ => None
        end
    | Raise _ _ => None
    end
  else None.

(** The name under which an object is staged when [n] files were staged
    before it. *)
Definition staged_name (key : string) (n : nat) : string :=
  if String.eqb (basename key) EmptyString
  then "s3_file_" +:+ pretty n +:+ ".bin"
  else basename key.

(** The files that [download_from_s3] stages for a list of S3 paths, with
    their bytes, in order, when [n] files were staged before: the paths
    that cannot be fetched are skipped. *)
Fixpoint staged_files `{Capabilities} (temp_dir : string) (s3_paths : list string)
    (n : nat) : list (string * string) :=
  match s3_paths with
  | [] => []
  | p :: rest =>
      match fetched p with
      | Some (key, bytes) =>
          (path_join temp_dir (staged_name key n), bytes)
            :: staged_files temp_dir rest (S n)
      | None => staged_files temp_dir rest n
      end
  end.

(** Writing files one after the other. *)
Definition write_all (fs : gmap string string) (l : list (string * string))
    : gmap string string :=
  fold_left (fun fs kv => <[fst kv := snd kv]> fs) l fs.

(** Collaborators of a machine without any credential in its environment:
    no API key, no default AWS credentials, an object store that refuses
    every listing. *)
Definition bare_caps : Capabilities := {|
  embed := fun s => Ok [Z.of_nat (String.length s)];
  llm := answering_model;
  blob := option Index;
  serialize := fun ix => Some ix;
  deserialize := fun b =>
    match b with
    | Some ix => Ok ix
    | None => Raise OtherError "corrupt index"
    end;
  loader_load := fun _ path bytes => Ok [mkDocument bytes {["source" := path]}];
  head_object := fun _ _ => Raise ClientError "Forbidden";
  download_file := fun _ _ => Raise ClientError "Forbidden";
  list_objects_v2 := fun _ _ _ => Raise ClientError "AccessDenied";
  mkdtemp := "/tmp/tmpdocs";
  getenv := fun _ => None;
  default_credentials := false
|}.

(** The listing that the object store gave, as [list_s3_objects] reads it:
    empty without a [Contents] entry. *)
Definition listed (bucket_name : string) (contents : list (string * Z * string))
    : list S3Object :=
  map (fun '(k, sz, lm) => mkS3Object k sz lm (bucket_name +:+ "/" +:+ k)) contents.

(** The chain of the chatbot, when there is one, is the chain made from
    its current index. *)
Definition chain_matches_index `{Capabilities} (cb : ContextChatbot) : Prop :=
  qa_chain cb = from_llm <$> vectorstore cb.

(** A call of a method of the chatbot. *)
Inductive method :=
| CallLoadDocuments (file_paths s3_paths : list string)
| CallProcessDocuments (documents : list Document)
| CallQuery (question : string)
| CallReset
| CallSave (path : string)
| CallLoad (path : string)
| CallListS3 (bucket_name prefix : string) (max_keys : Z)
| CallDownload (s3_paths : list string) (temp_dir : string).

(** The world after a call, whether it returned or raised. *)
Definition after `{Capabilities} (m : method) (w : World) : World :=
  match m with
  | CallLoadDocuments fps s3 => snd (load_documents fps s3 w)
  | CallProcessDocuments docs => snd (process_documents docs w)
  | CallQuery q => snd (query q w)
  | CallReset => snd (reset_conversation w)
  | CallSave path => snd (save_vectorstore path w)
  | CallLoad path => snd (load_vectorstore path w)
  | CallListS3 b pre n => snd (list_s3_objects b pre n w)
  | CallDownload s3 d => snd (download_from_s3 s3 d w)
  end.

Definition after_all `{Capabilities} (ms : list method) (w : World) : World :=
  fold_left (fun w m => after m w) ms w.


(** A memory with the cap of the chatbot that holds no more turns than
    its cap. *)
Definition capped (m : Memory.t) : Prop :=
  Memory.k m = 10%nat /\ (length (Memory.window m) <= 10)%nat.

(** Turn number [i] of a conversation. *)
Definition numbered_turn (i : nat) : Memory.Turn :=
  Memory.mkTurn ("question " +:+ pretty i) ("answer " +:+ pretty i).

(** A computation that leaves the chatbot object as it found it, however
    it ends. *)
Definition keeps_self `{Capabilities} {A} (c : M A) : Prop :=
  forall w, self (snd (c w)) = self w.


















(** ** Properties of the conversation memory *)

Section MemoryFacts.

Local Open Scope nat_scope.

Lemma appends_snoc (m : Memory.t) (xs : list Memory.Turn) (x : Memory.Turn) :
  Memory.appends m (xs ++ [x]) = Memory.append (Memory.appends m xs) x.
Proof. unfold Memory.appends. by rewrite fold_left_app. Qed.

Lemma append_k (m : Memory.t) (x : Memory.Turn) :
  Memory.k (Memory.append m x) = Memory.k m.
Proof. reflexivity. Qed.

Lemma appends_k (m : Memory.t) (xs : list Memory.Turn) :
  Memory.k (Memory.appends m xs) = Memory.k m.
Proof.
  induction xs as [|x xs IH] using rev_ind; [done|].
  by rewrite appends_snoc, append_k.
Qed.

Lemma tail_drop {A} (l : list A) : tail l = drop 1 l.
Proof. by destruct l. Qed.

(** From an empty memory of cap [cap], the window after any sequence of
    appends is the last [cap] turns of the sequence, oldest first. *)
Lemma window_appends (cap : nat) (xs : list Memory.Turn) :
  0 < cap ->
  Memory.window (Memory.appends (Memory.mkMemory cap []) xs)
  = drop (length xs - cap) xs.
Proof.
  intros Hcap. induction xs as [|x xs IH] using rev_ind.
  - reflexivity.
  - rewrite appends_snoc. unfold Memory.window, Memory.append in *.
    rewrite appends_k, IH. cbn [Memory.k Memory.turns].
    rewrite !length_app, length_drop. cbn [length].
    destruct (Nat.ltb_spec cap (length xs - (length xs - cap) + 1)) as [Hlt|Hge].
    + rewrite tail_drop.
      rewrite <- (drop_app_le xs [x]) by lia.
      rewrite drop_drop. f_equal. lia.
    + replace (length xs - cap) with 0 by lia.
      replace (length xs + 1 - cap) with 0 by lia.
      by rewrite !drop_0.
Qed.

Lemma append_capped (m : Memory.t) (x : Memory.Turn) :
  capped m -> capped (Memory.append m x).
Proof.
  intros [Hk Hlen]. unfold capped, Memory.window, Memory.append in *.
  cbn [Memory.k Memory.turns]. split; [done|]. rewrite Hk.
  destruct (Nat.ltb_spec 10 (length (Memory.turns m ++ [x]))) as [Hlt|Hge];
    [|done].
  rewrite tail_drop, length_drop, length_app. cbn [length]. lia.
Qed.

Lemma clear_capped (m : Memory.t) : capped m -> capped (Memory.clear m).
Proof. intros [Hk _]. split; [done|]. cbn. lia. Qed.

(** Eleven turns: the first one is evicted, the other ten remain in
    order. *)
Example eleven_turns :
  Memory.window (Memory.appends Memory.create (map numbered_turn (seq 0 11)))
  = map numbered_turn (seq 1 10).
Proof. reflexivity. Qed.

End MemoryFacts.

(** C3. For every sequence of turns appended to the memory of a new
    chatbot (K = 10), the window never holds more than 10 turns: it is
    exactly the last 10 turns appended, oldest first, so its length is the
    smaller of 10 and the number of appends, and the eleventh append has
    evicted the oldest turn. *)
Theorem memory_window_capped (xs : list Memory.Turn) :
  let m := Memory.appends Memory.create xs in
  (length (Memory.window m) <= 10)%nat
  /\ length (Memory.window m) = Nat.min (length xs) 10
  /\ Memory.window m = drop (length xs - 10) xs.
Proof.
  cbn zeta. unfold Memory.create.
  rewrite window_appends by lia.
  rewrite length_drop. repeat split; lia.
Qed.

(** ** Properties of the chatbot operations *)

Section ChatbotFacts.

Context `{Capabilities}.

Lemma set_memory_same (cb : ContextChatbot) : set_memory (memory cb) cb = cb.
Proof. by destruct cb. Qed.

Lemma world_eta (w : World) :
  mkWorld (self w) (files w) (disk w) (stdout w) = w.
Proof. by destruct w. Qed.

(** A failing chain call hands the memory back as it received it. *)
Lemma chain_call_raise (ch : Chain) (mem mem' : Memory.t) (question : string)
    (cls : exn_class) (msg : string) :
  chain_call ch mem question = (Raise cls msg, mem') -> mem' = mem.
Proof.
  unfold chain_call.
  destruct (retrieve _ _ _); [|congruence].
  destruct (llm _); [cbn|]; congruence.
Qed.

(** [query] always returns a dictionary: every exception of the chain
    is caught. *)
Lemma query_returns (question : string) (w : World) :
  exists d w', query question w = (Return d, w').
Proof.
  unfold query, bind, get_self.
  destruct (qa_chain (self w)) as [ch|]; [|by eexists _, _].
  unfold try_except, bind.
  destruct (chain_call ch (memory (self w)) question) as [[resp|cls msg] mem];
    cbn; by eexists _, _.
Qed.

(** A new chatbot has neither index nor chain, and an empty memory. *)
Lemma fresh_chatbot_not_ready (k1 k2 k3 k4 : option string) (lines : list out)
    (cb : ContextChatbot) :
  init k1 k2 k3 k4 = (lines, Ok cb) ->
  vectorstore cb = None /\ qa_chain cb = None /\ memory cb = Memory.create.
Proof.
  unfold init. destruct (negb _); [done|].
  destruct (_ && _)%bool; [|destruct default_credentials];
    by intros [= _ <-].
Qed.

(** Whatever a query does, the memory of the chatbot stays within its
    cap. *)
Lemma query_capped (question : string) (w : World) :
  capped (memory (self w)) -> capped (memory (self (snd (query question w)))).
Proof.
  intros Hcap. unfold query, bind, get_self.
  destruct (qa_chain (self w)) as [ch|]; [|done].
  unfold try_except, bind, chain_call.
  destruct (retrieve _ _ _) as [records|cls msg]; [|done].
  destruct (llm _) as [answer|cls msg]; [|done].
  destruct (save_context _ _ _ _) as [mem'|cls msg] eqn:Hsave; cbn; [|done].
  unfold save_context in Hsave.
  destruct Memory.output_key, output_keys as [|key [|key' keys]];
    simplify_eq; by apply append_capped.
Qed.

Lemma reset_capped (w : World) :
  capped (memory (self w)) ->
  capped (memory (self (snd (reset_conversation w)))).
Proof. intros Hcap. cbn. by apply clear_capped. Qed.




End ChatbotFacts.

(** C2. For every question, [query] on a chatbot that has no chain (no
    document was loaded, no index restored) returns the "not ready"
    dictionary: the answer asks the user to upload documents, the evidence
    list is empty; nothing is raised and the chatbot is left as it was. *)
Theorem query_before_load `{Capabilities} (question : string) (w : World) :
  qa_chain (self w) = None ->
  query question w
  = (Return [ ("answer", VStr "Please upload documents first before asking questions.");
              ("sources", VSources []);
              ("error", VStr "No documents loaded") ],
     w).
Proof.
  intros Hq. unfold query, bind, get_self. by rewrite Hq.
Qed.

Lemma query_before_load_witness :
  let caps := sample_caps answering_model ∅ in
  let w := mkWorld (sample_chatbot None) ∅ ∅ [] in
  qa_chain (self w) = None
  /\ query "What is the capital of France?" w
     = (Return [ ("answer", VStr "Please upload documents first before asking questions.");
                 ("sources", VSources []);
                 ("error", VStr "No documents loaded") ],
        w).
Proof.
  cbn zeta. split; [reflexivity|].
  apply (@query_before_load (sample_caps answering_model ∅)). reflexivity.
Defined.

(** C4. If the language model fails during a query, the call returns the
    error dictionary for that call and the world is exactly as before: in
    particular the conversation memory has the same turns. *)
Theorem failed_generation_keeps_memory `{Capabilities} (question : string)
    (w : World) (chain : Chain) (records : list VectorRecord)
    (cls : exn_class) (msg : string) :
  qa_chain (self w) = Some chain ->
  retrieve (retriever chain) question (search_k chain) = Ok records ->
  llm (build_prompt (map chunk records) (memory (self w)) question)
  = Raise cls msg ->
  query question w
  = (Return [ ("answer", VStr ("An error occurred while processing your question: "
                                +:+ msg));
              ("sources", VSources []);
              ("error", VStr msg) ],
     w)
  /\ forall d w', query question w = (d, w') ->
       Memory.window (memory (self w')) = Memory.window (memory (self w)).
Proof.
  intros Hq Hret Hllm.
  assert (Hrun : query question w
                 = (Return [ ("answer", VStr ("An error occurred while processing your question: "
                                               +:+ msg));
                             ("sources", VSources []);
                             ("error", VStr msg) ], w)).
  { unfold query, bind, get_self. rewrite Hq.
    unfold try_except, bind, chain_call. rewrite Hret, Hllm. cbn.
    by rewrite set_memory_same, world_eta. }
  split; [exact Hrun|].
  intros d w' Hd. rewrite Hrun in Hd. by inversion Hd.
Qed.

Lemma failed_generation_keeps_memory_witness :
  let caps := sample_caps failing_model ∅ in
  let w := mkWorld (sample_chatbot (Some sample_index)) ∅ ∅ [] in
  exists records,
    retrieve sample_index "hi" 5 = Ok records
    /\ query "hi" w
       = (Return [ ("answer", VStr "An error occurred while processing your question: quota exceeded");
                   ("sources", VSources []);
                   ("error", VStr "quota exceeded") ],
          w).
Proof.
  cbn zeta. eexists. split; [reflexivity|].
  eapply (@failed_generation_keeps_memory (sample_caps failing_model ∅));
    reflexivity.
Defined.



(** C10. [load_vectorstore] never raises. When the stored index cannot be
    read back (nothing is stored at the path, or the stored blob does not
    deserialize), the failure is printed and the chatbot, with its index
    and its chain, is exactly as before the call. *)
Theorem load_vectorstore_failure_atomic `{Capabilities} (path : string) (w : World) :
  (exists w', load_vectorstore path w = (Return tt, w'))
  /\ ((disk w !! path = None
       \/ exists b cls msg, disk w !! path = Some b /\ deserialize b = Raise cls msg) ->
      exists msg,
        load_vectorstore path w
        = (Return tt,
           mkWorld (self w) (files w) (disk w)
                   (stdout w ++ [Line ("❌ Error loading vector store: " +:+ msg)]))).
Proof.
  split.
  - unfold load_vectorstore, try_except, bind, load_local.
    destruct (disk w !! path) as [b|]; [|by eexists].
    destruct (deserialize b); cbn; by eexists.
  - intros [Hnone | (b & cls & msg & Hb & Hde)].
    + unfold load_vectorstore, try_except, bind, load_local.
      rewrite Hnone. by eexists.
    + unfold load_vectorstore, try_except, bind, load_local.
      rewrite Hb, Hde. cbn. by eexists.
Qed.

Lemma load_vectorstore_failure_atomic_witness :
  let caps := sample_caps answering_model ∅ in
  let w := mkWorld (sample_chatbot (Some sample_index)) ∅ {["idx" := None]} [] in
  disk w !! "idx" = Some None
  /\ @deserialize caps None = Raise OtherError "corrupt index"
  /\ exists msg,
       load_vectorstore "idx" w
       = (Return tt,
          mkWorld (self w) (files w) (disk w)
                  [Line ("❌ Error loading vector store: " +:+ msg)]).
Proof.
  intros caps w. split; [reflexivity|]. split; [reflexivity|].
  apply (proj2 (load_vectorstore_failure_atomic "idx" w)).
  right. by eexists None, OtherError, "corrupt index".
Defined.

(** ** Provenance of downloaded documents *)

Section ProvenanceFacts.

Context `{Capabilities}.





Lemma tag_s3_content (s3_paths : list string) (name : string) (doc : Document) :
  page_content (tag_s3 s3_paths name doc) = page_content doc.
Proof. unfold tag_s3. by destruct (original_s3_path s3_paths name). Qed.

Lemma prefix_app (a b : string) : String.prefix a (a +:+ b) = true.
Proof.
  induction a as [|c a IH]; [by destruct b|].
  simpl. destruct (ascii_dec c c) as [_|Hne]; [exact IH|by destruct Hne].
Qed.

(** A file staged with [os.path.join(temp_dir, filename)] lies in the
    temporary directory. *)
Lemma staged_in_temp_dir (temp_dir filename : string) :
  temp_dir <> EmptyString ->
  startswith filename "/" = false ->
  in_temp_dir (Some temp_dir) (path_join temp_dir filename) = true.
Proof.
  intros Hd Hf. unfold in_temp_dir, path_join. rewrite Hf.
  apply andb_true_iff. split.
  - apply negb_true_iff. by apply String.eqb_neq.
  - unfold startswith.
    destruct (_ || _)%bool; [apply prefix_app|].
    apply prefix_app.
Qed.

Lemma contains_slash_basename (p : string) : contains_slash (basename p) = false.
Proof.
  induction p as [|c p IH]; [done|].
  cbn [basename].
  destruct (Ascii.eqb c "/") eqn:Hc; [done|].
  destruct (contains_slash p) eqn:Hp; [done|].
  cbn [contains_slash]. by rewrite Hc.
Qed.

Lemma startswith_slash (s : string) :
  contains_slash s = false -> startswith s "/" = false.
Proof.
  destruct s as [|c s]; [done|].
  cbn [contains_slash]. unfold startswith. cbn [String.prefix].
  destruct (Ascii.eqb_spec c "/") as [->|Hne]; [done|].
  intros _. destruct (ascii_dec "/" c) as [<-|_]; [done|reflexivity].
Qed.

(** Every file that [download_one] adds to the list is staged in the
    temporary directory. *)
Lemma download_one_staged (temp_dir : string) (local_files local_files' : list string)
    (s3_path : string) (w w' : World) :
  temp_dir <> EmptyString ->
  Forall (fun f => in_temp_dir (Some temp_dir) f = true) local_files ->
  download_one temp_dir local_files s3_path w = (Return local_files', w') ->
  Forall (fun f => in_temp_dir (Some temp_dir) f = true) local_files'.
Proof.
  intros Hd Hall. unfold download_one, try_except, bind, print, ret, throw, call.
  intros Hrun.
  repeat (case_match; simplify_eq; try done).
  all: apply Forall_app; split; [done|]; constructor; [|done].
  all: apply staged_in_temp_dir; [done|].
  all: first [reflexivity | apply startswith_slash, contains_slash_basename].
Qed.

Lemma download_from_s3_staged (temp_dir : string) (s3_paths local_files : list string)
    (w w' : World) :
  temp_dir <> EmptyString ->
  download_from_s3 s3_paths temp_dir w = (Return local_files, w') ->
  Forall (fun f => in_temp_dir (Some temp_dir) f = true) local_files.
Proof.
  intros Hd. unfold download_from_s3, bind, get_self.
  destruct (negb (s3_client (self w))); [done|].
  assert (Hgen : forall l acc w0 w1 res,
             Forall (fun f => in_temp_dir (Some temp_dir) f = true) acc ->
             for_each (download_one temp_dir) l acc w0 = (Return res, w1) ->
             Forall (fun f => in_temp_dir (Some temp_dir) f = true) res).
  { induction l as [|p l IH]; intros acc w0 w1 res Hacc.
    - cbn. by intros [= <- _].
    - cbn [for_each]. unfold bind.
      destruct (download_one temp_dir acc p w0) as [[acc'|e] w0'] eqn:Hone;
        [|done].
      intros Hrest. eapply IH; [|exact Hrest].
      eapply download_one_staged; [exact Hd|exact Hacc|exact Hone]. }
  intros Hrun. eapply Hgen; [|exact Hrun]. constructor.
Qed.

End ProvenanceFacts.



(** ** Loading touches the chatbot only when it builds an index *)

Section LoadFacts.

Context `{Capabilities}.

Local Open Scope chatbot_scope.

Lemma keeps_self_ret {A} (a : A) : keeps_self (ret a).
Proof. by intros w. Qed.

Lemma keeps_self_throw {A} (e : exn) : keeps_self (@throw _ A e).
Proof. by intros w. Qed.

Lemma keeps_self_print (s : string) : keeps_self (print s).
Proof. by intros w. Qed.

Lemma keeps_self_call {A} (r : result A) : keeps_self (call r).
Proof. by destruct r; intros w. Qed.

Lemma keeps_self_get_self : keeps_self get_self.
Proof. by intros w. Qed.

Lemma keeps_self_write_file (path bytes : string) :
  keeps_self (write_file path bytes).
Proof. by intros w. Qed.

Lemma keeps_self_read_file (path : string) : keeps_self (read_file path).
Proof. by intros w. Qed.

Lemma keeps_self_rmtree (dir : string) : keeps_self (rmtree dir).
Proof. by intros w. Qed.

Lemma keeps_self_bind {A B} (c : M A) (k : A -> M B) :
  keeps_self c -> (forall a, keeps_self (k a)) -> keeps_self (bind c k).
Proof.
  intros Hc Hk w. unfold bind. specialize (Hc w).
  destruct (c w) as [[a|e] w']; cbn in *; [|done].
  by rewrite Hk.
Qed.

Lemma keeps_self_try_except {A} (body : M A) (handler : exn_class -> string -> M A) :
  keeps_self body -> (forall cls msg, keeps_self (handler cls msg)) ->
  keeps_self (try_except body handler).
Proof.
  intros Hb Hh w. unfold try_except. specialize (Hb w).
  destruct (body w) as [[a|[cls msg|code]] w']; cbn in *; [done| |done].
  by rewrite Hh.
Qed.

Lemma keeps_self_finally {A} (body : M A) (cleanup : M unit) :
  keeps_self body -> keeps_self cleanup -> keeps_self (finally body cleanup).
Proof.
  intros Hb Hc w. unfold finally. specialize (Hb w).
  destruct (body w) as [r w']. specialize (Hc w').
  destruct (cleanup w') as [[u|e] w'']; cbn in *; congruence.
Qed.

Lemma keeps_self_for_each {A B} (body : B -> A -> M B) (l : list A) (acc : B) :
  (forall b a, keeps_self (body b a)) -> keeps_self (for_each body l acc).
Proof.
  intros Hbody. revert acc.
  induction l as [|x l IH]; intros acc; cbn [for_each].
  - apply keeps_self_ret.
  - apply keeps_self_bind; [apply Hbody|]. intros b. apply IH.
Qed.

Create HintDb keeps discriminated.

Hint Resolve keeps_self_ret keeps_self_throw keeps_self_print keeps_self_call
  keeps_self_get_self keeps_self_write_file keeps_self_read_file
  keeps_self_rmtree : keeps.

Ltac keeps :=
  repeat first
    [ progress auto with keeps
    | apply keeps_self_bind; [|intros ?]
    | apply keeps_self_try_except; [|intros ? ?]
    | apply keeps_self_finally
    | apply keeps_self_for_each; intros ? ?
    | progress cbv zeta
    | match goal with
      | |- keeps_self (if ?b then _ else _) => destruct b
      | |- keeps_self (match ?x with _ => _ end) => destruct x
      | |- keeps_self (let '(_, _) := ?x in _) => destruct x
      end ].

Lemma keeps_self_download_one (temp_dir : string) (local_files : list string)
    (s3_path : string) :
  keeps_self (download_one temp_dir local_files s3_path).
Proof. unfold download_one. keeps. Qed.

Hint Resolve keeps_self_download_one : keeps.

Lemma keeps_self_download_from_s3 (s3_paths : list string) (temp_dir : string) :
  keeps_self (download_from_s3 s3_paths temp_dir).
Proof.
  unfold download_from_s3. keeps.
Qed.

Hint Resolve keeps_self_download_from_s3 : keeps.

Lemma keeps_self_load_one (temp_dir : option string) (s3_paths : list string)
    (documents : list Document) (file_path : string) :
  keeps_self (load_one temp_dir s3_paths documents file_path).
Proof. unfold load_one. keeps. Qed.

Hint Resolve keeps_self_load_one : keeps.

Lemma keeps_self_load_documents (file_paths s3_paths : list string) :
  keeps_self (load_documents file_paths s3_paths).
Proof.
  unfold load_documents. keeps.
Qed.

(** With no document, [process_documents] prints its complaint and
    returns: nothing is built, nothing is raised. *)
Lemma process_documents_empty (w : World) :
  process_documents [] w
  = (Return tt,
     mkWorld (self w) (files w) (disk w)
             (stdout w ++ [Line "❌ No documents to process"])).
Proof. reflexivity. Qed.

(** The query branch stamps "success" on whatever [query] returned. *)
Lemma run_action_query_status (args : Args) (w : World) :
  action args = Query ->
  truthy (arg_question args) = true ->
  exists d w',
    run_action args w = (Return d, w')
    /\ dict_get d "status" = Some (VStr "success").
Proof.
  intros Ha Hq. unfold run_action. rewrite Ha, Hq. cbn [negb].
  unfold bind.
  destruct (query_returns (or_empty_string (arg_question args)) w)
    as (d & w' & ->).
  eexists _, _. split; [reflexivity|].
  clear. induction d as [|[k v] d IH]; cbn; [done|].
  destruct (String.eqb_spec k "status") as [->|Hne]; cbn.
  - done.
  - apply String.eqb_neq in Hne. by rewrite Hne.
Qed.

End LoadFacts.

(** C1. What the code does when loading yields no document: the load
    action does not fail. [process_documents] prints "No documents to
    process" and returns, the chatbot (index and chain included) is as it
    was before the load, and the result is reported with status "success"
    and a count of zero. *)
Theorem empty_load_reports_success `{Capabilities} (args : Args) (w w1 : World)
    (file_paths : list string) :
  action args = Load ->
  (nonempty_list (or_empty (arg_files args))
   || nonempty_list (or_empty (arg_s3_paths args)))%bool = true ->
  load_documents (or_empty (arg_files args)) (or_empty (arg_s3_paths args)) w
  = (Return ([], file_paths), w1) ->
  exists d w2,
    run_action args w = (Return d, w2)
    /\ dict_get d "status" = Some (VStr "success")
    /\ dict_get d "documents_count" = Some (VInt 0)
    /\ stdout w2 = stdout w1 ++ [Line "❌ No documents to process"]
    /\ self w2 = self w
    /\ vectorstore (self w2) = vectorstore (self w)
    /\ qa_chain (self w2) = qa_chain (self w).
Proof.
  intros Ha Hne Hload.
  assert (Hself : self w1 = self w).
  { pose proof (keeps_self_load_documents (or_empty (arg_files args))
                  (or_empty (arg_s3_paths args)) w) as Hk.
    by rewrite Hload in Hk. }
  unfold run_action. rewrite Ha.
  apply orb_true_iff in Hne.
  assert (Hguard : (negb (nonempty_list (or_empty (arg_files args)))
                    && negb (nonempty_list (or_empty (arg_s3_paths args))))%bool
                   = false).
  { destruct Hne as [-> | ->]; [done|]. apply andb_false_r. }
  rewrite Hguard. unfold bind at 1. rewrite Hload.
  unfold bind. rewrite process_documents_empty. cbn.
  eexists _, _. split; [reflexivity|].
  cbn. rewrite Hself. by repeat split.
Qed.

Lemma empty_load_reports_success_witness :
  let caps := sample_caps answering_model ∅ in
  let args := sample_args Load (Some ["missing.txt"]) None None in
  let w := mkWorld (sample_chatbot (Some sample_index)) ∅ ∅ [] in
  exists d w2,
    run_action args w = (Return d, w2)
    /\ dict_get d "status" = Some (VStr "success")
    /\ vectorstore (self w2) = Some sample_index
    /\ results_of (main args ∅ ∅)
       = [ [ ("status", VStr "success");
             ("message", VStr "Successfully loaded 0 documents");
             ("documents_count", VInt 0);
             ("local_files", VInt 1);
             ("s3_files", VInt 0) ] ].
Proof.
  intros caps args w.
  destruct (empty_load_reports_success args w
              (mkWorld (self w) ∅ ∅ [Line "⚠️  File not found: missing.txt"])
              ["missing.txt"] eq_refl eq_refl eq_refl)
    as (d & w2 & Hrun & Hst & _ & _ & _ & Hvs & _).
  exists d, w2.
  split; [exact Hrun|]. split; [exact Hst|]. split; [exact Hvs|]. reflexivity.
Defined.

(** C7. What the code reports when the operation failed. The query branch
    of [main], on a chatbot whose generation call fails, returns the
    dictionary of the failure with status "success" next to its "error"
    entry; a run of [main] that loads no document prints status "success";
    and a run of [main] that queries, its chatbot being new, prints the
    "not ready" dictionary with status "success" next to its "error"
    entry. *)
Theorem failed_operations_report_success :
  let bad := sample_caps failing_model ∅ in
  let ready := mkWorld (sample_chatbot (Some sample_index)) ∅ ∅ [] in
  @run_action bad (sample_args Query None None (Some "What is the capital of France?")) ready
  = (Return [ ("answer", VStr "An error occurred while processing your question: quota exceeded");
              ("sources", VSources []);
              ("error", VStr "quota exceeded");
              ("status", VStr "success") ],
     ready)
  /\ @main bad (sample_args Load (Some ["missing.txt"]) None None) ∅ ∅
     = mkRun 0
         [ Line "✅ AWS S3 client initialized with default credentials";
           Line "✅ Chatbot initialized successfully";
           Line "⚠️  File not found: missing.txt";
           Line "❌ No documents to process";
           Json [ ("status", VStr "success");
                  ("message", VStr "Successfully loaded 0 documents");
                  ("documents_count", VInt 0);
                  ("local_files", VInt 1);
                  ("s3_files", VInt 0) ] ]
  /\ @main bad (sample_args Query None None (Some "What is the capital of France?")) ∅ ∅
     = mkRun 0
         [ Line "✅ AWS S3 client initialized with default credentials";
           Line "✅ Chatbot initialized successfully";
           Json [ ("answer", VStr "Please upload documents first before asking questions.");
                  ("sources", VSources []);
                  ("error", VStr "No documents loaded");
                  ("status", VStr "success") ] ].
Proof. cbn zeta. repeat split. Qed.

(** ** Properties of the text splitter *)

Section SplitterFacts.

Import TextSplitter.

Local Open Scope nat_scope.














(** *** The recursion over the separators *)







(** *** Texts without white space *)












(** *** Overlap of the chunks of a text without white space *)






(** *** A text of at most three chunks *)



(** *** Where the chunks lie in the text *)

























End SplitterFacts.




(** * Further properties of the code *)

(** ** Loading documents *)

Section LoadingFacts.

Context `{Capabilities}.

Local Open Scope chatbot_scope.

(** One pass of the loop of [load_documents]: it never raises, prints one
    line, appends what the file contributes and changes nothing else. *)
Lemma load_one_outcome (temp_dir : option string) (s3_paths : list string)
    (documents : list Document) (file_path : string) (w : World) :
  exists line,
    load_one temp_dir s3_paths documents file_path w
    = (Return (documents ++ file_docs temp_dir s3_paths (files w) file_path),
       mkWorld (self w) (files w) (disk w) (stdout w ++ [Line line])).
Proof.
  unfold load_one, file_docs, try_except, bind, read_file, call, print, ret, throw.
  destruct (files w !! file_path) as [bytes|]; cbn;
    [|rewrite app_nil_r; by eexists].
  destruct (select_loader _) as [loader|]; cbn;
    [|rewrite app_nil_r; by eexists].
  destruct (loader_load loader file_path bytes) as [docs|cls msg]; cbn;
    [|rewrite app_nil_r; by eexists].
  by eexists.
Qed.

Lemma load_all_outcome (temp_dir : option string) (s3_paths file_paths : list string)
    (documents : list Document) (w : World) :
  exists lines,
    for_each
      (fun documents file_path =>
         load_one temp_dir s3_paths documents (str_path file_path))
      file_paths documents w
    = (Return (documents
               ++ flat_map (file_docs temp_dir s3_paths (files w))
                           (map str_path file_paths)),
       mkWorld (self w) (files w) (disk w) (stdout w ++ map Line lines))
    /\ length lines = length file_paths.
Proof.
  revert documents w. induction file_paths as [|fp fps IH]; intros documents w.
  - exists []. cbn. rewrite !app_nil_r. by destruct w.
  - cbn [for_each flat_map map]. unfold bind at 1.
    destruct (load_one_outcome temp_dir s3_paths documents (str_path fp) w)
      as [line ->].
    destruct (IH (documents ++ file_docs temp_dir s3_paths (files w) (str_path fp))
                 (mkWorld (self w) (files w) (disk w) (stdout w ++ [Line line])))
      as (lines & -> & Hlen).
    exists (line :: lines). cbn. rewrite <- !app_assoc. split; [done|].
    by rewrite Hlen.
Qed.

Lemma jsons_app (l1 l2 : list out) : jsons (l1 ++ l2) = jsons l1 ++ jsons l2.
Proof. unfold jsons. apply flat_map_app. Qed.

Lemma jsons_lines (lines : list string) : jsons (map Line lines) = [].
Proof. induction lines as [|x lines IH]; [done|]. exact IH. Qed.

Lemma jsons_snoc_line (l : list out) (x : string) : jsons (l ++ [Line x]) = jsons l.
Proof. rewrite jsons_app. cbn. apply app_nil_r. Qed.

(** One pass of the loop of [download_from_s3]: it never raises and
    touches neither the chatbot nor the saved indexes; either the list and
    the files are as before, or one file was written into the temporary
    directory and its path appended. *)
Lemma download_one_outcome (temp_dir : string) (local_files : list string)
    (s3_path : string) (w : World) :
  exists local_files' w',
    download_one temp_dir local_files s3_path w = (Return local_files', w')
    /\ self w' = self w
    /\ disk w' = disk w
    /\ jsons (stdout w') = jsons (stdout w)
    /\ ((local_files' = local_files /\ files w' = files w)
        \/ exists filename bytes,
             local_files' = local_files ++ [path_join temp_dir filename]
             /\ files w' = <[path_join temp_dir filename := bytes]> (files w)
             /\ startswith filename "/" = false).
Proof.
  destruct (download_one temp_dir local_files s3_path w) as [r w'] eqn:Hrun.
  unfold download_one, try_except, bind, call, print, ret, throw, write_file
    in Hrun.
  repeat (case_match; simplify_eq; try done); cbn.
  all: eexists _, _; split; [reflexivity|]; cbn.
  all: rewrite ?jsons_snoc_line.
  all: split; [reflexivity|]; split; [reflexivity|]; split; [reflexivity|].
  all: first [ by left
             | right; eexists _, _; split; [reflexivity|]; split; [reflexivity|];
               first [reflexivity | apply startswith_slash, contains_slash_basename] ].
Qed.

Lemma download_all_outcome (temp_dir : string) (s3_paths local_files : list string)
    (w : World) :
  exists downloaded w',
    for_each (download_one temp_dir) s3_paths local_files w
    = (Return (local_files ++ downloaded), w')
    /\ self w' = self w
    /\ disk w' = disk w
    /\ jsons (stdout w') = jsons (stdout w)
    /\ length downloaded <= length s3_paths
    /\ Forall (staged temp_dir) downloaded
    /\ forall p, files w' !! p <> files w !! p -> staged temp_dir p.
Proof.
  revert local_files w.
  induction s3_paths as [|p0 s3_paths IH]; intros local_files w.
  - exists [], w. cbn. rewrite app_nil_r. by repeat split.
  - cbn [for_each]. unfold bind at 1.
    destruct (download_one_outcome temp_dir local_files p0 w)
      as (lf1 & w1 & -> & Hself1 & Hdisk1 & Hjson1 & Hcase).
    destruct (IH lf1 w1)
      as (dl & w' & -> & Hself & Hdisk & Hjson & Hlen & Hstaged & Hfiles).
    destruct Hcase as [[-> Hf1] | (filename & bytes & -> & Hf1 & Habs)].
    + exists dl, w'. split; [done|].
      split; [congruence|]. split; [congruence|]. split; [congruence|].
      split; [cbn [length]; lia|]. split; [done|].
      intros p Hp. apply Hfiles. by rewrite Hf1.
    + exists (path_join temp_dir filename :: dl), w'.
      rewrite <- app_assoc. split; [done|].
      split; [congruence|]. split; [congruence|]. split; [congruence|].
      split; [cbn [length]; lia|].
      split; [constructor; [by exists filename|done]|].
      intros p Hp.
      destruct (decide (p = path_join temp_dir filename)) as [->|Hne];
        [by exists filename|].
      apply Hfiles. rewrite Hf1. by rewrite lookup_insert_ne.
Qed.

Lemma string_app_assoc (a b c : string) : (a +:+ b) +:+ c = a +:+ (b +:+ c).
Proof.
  induction a as [|x a IH]; [done|].
  change (String x ((a +:+ b) +:+ c) = String x (a +:+ (b +:+ c))).
  by rewrite IH.
Qed.

(** With a temporary directory that is named and does not end in a slash,
    a staged file lies below the directory. *)
Lemma staged_under (temp_dir path : string) :
  temp_dir <> EmptyString -> ends_with_slash temp_dir = false ->
  staged temp_dir path -> under temp_dir path = true.
Proof.
  intros Hd Hslash (filename & -> & Habs).
  unfold under, path_join. rewrite Habs, Hslash, orb_false_r.
  unfold startswith.
  apply String.eqb_neq in Hd. rewrite Hd.
  rewrite <- string_app_assoc. apply prefix_app.
Qed.

(** With an S3 client, [download_from_s3] never raises: every path that
    fails is skipped. *)
Lemma download_from_s3_outcome (temp_dir : string) (s3_paths : list string)
    (w : World) :
  s3_client (self w) = true ->
  exists downloaded w',
    download_from_s3 s3_paths temp_dir w = (Return downloaded, w')
    /\ self w' = self w
    /\ disk w' = disk w
    /\ jsons (stdout w') = jsons (stdout w)
    /\ length downloaded <= length s3_paths
    /\ Forall (staged temp_dir) downloaded
    /\ forall p, files w' !! p <> files w !! p -> staged temp_dir p.
Proof.
  intros Hclient. unfold download_from_s3, bind, get_self.
  rewrite Hclient. cbn [negb].
  exact (download_all_outcome temp_dir s3_paths [] w).
Qed.

(** [load_documents] never raises. It returns the list of paths it was
    given followed by the staged files, at most one for each S3 path, and
    the documents that these files contribute, in order; it leaves the
    chatbot and the saved indexes alone and prints no JSON. *)
Lemma load_documents_outcome (file_paths s3_paths : list string) (w : World) :
  exists downloaded w1 w',
    load_documents file_paths s3_paths w
    = (Return (flat_map (file_docs (staging_dir (self w) s3_paths) s3_paths (files w1))
                        (map str_path (file_paths ++ downloaded)),
               file_paths ++ downloaded),
       w')
    /\ self w' = self w
    /\ disk w' = disk w
    /\ jsons (stdout w') = jsons (stdout w)
    /\ length downloaded <= length s3_paths
    /\ Forall (staged mkdtemp) downloaded
    /\ (forall p, files w1 !! p <> files w !! p -> staged mkdtemp p)
    /\ match staging_dir (self w) s3_paths with
       | None => downloaded = [] /\ files w1 = files w /\ files w' = files w
       | Some d =>
           d = mkdtemp
           /\ (d <> EmptyString ->
               forall p, files w' !! p
                         = if under d p then None else files w1 !! p)
       end.
Proof.
  unfold load_documents, staging_dir, bind at 1, get_self.
  destruct (nonempty_list s3_paths && s3_client (self w))%bool eqn:Hs3.
  - apply andb_true_iff in Hs3. destruct Hs3 as [_ Hclient].
    unfold finally, bind, print.
    destruct (download_from_s3_outcome mkdtemp s3_paths
                (mkWorld (self w) (files w) (disk w)
                   (stdout w ++ [Line ("📁 Created temporary directory: " +:+ mkdtemp)]))
                Hclient)
      as (dl & w1 & Hdl & Hself1 & Hdisk1 & Hjson1 & Hlen & Hstaged & Hfiles).
    cbn [app] in Hdl. rewrite Hdl. cbn [ret].
    destruct (load_all_outcome (Some mkdtemp) s3_paths (file_paths ++ dl) [] w1)
      as (lines & Hload & _).
    cbn [app] in Hload. rewrite Hload.
    cbn [self files disk stdout] in *. rewrite jsons_snoc_line in Hjson1.
    destruct (String.eqb_spec mkdtemp EmptyString) as [Hempty|Hnamed]; cbn.
    + exists dl, w1. eexists. split; [reflexivity|]. cbn.
      rewrite jsons_app, jsons_lines, app_nil_r.
      repeat split; try done.
    + exists dl, w1. eexists. split; [reflexivity|]. cbn.
      rewrite !jsons_app, jsons_lines. cbn. rewrite !app_nil_r.
      repeat split; try done.
      intros _ p. rewrite map_lookup_filter. unfold under, startswith.
      destruct (files w1 !! p) as [bytes|] eqn:Hp; cbn;
        destruct (String.prefix (mkdtemp +:+ "/") p) eqn:Hpre; try done.
  - unfold finally, bind, ret.
    destruct (load_all_outcome None s3_paths file_paths [] w) as (lines & Hload & _).
    cbn [app] in Hload. rewrite Hload. cbn.
    exists [], w. eexists. rewrite app_nil_r. split; [reflexivity|]. cbn.
    rewrite jsons_app, jsons_lines, app_nil_r.
    repeat split; try done. cbn [length]. lia.
Qed.

(** What one pass of the loop of [download_from_s3] returns and writes:
    the object is staged when it can be fetched, and the pass changes
    nothing but the printed lines when it cannot. *)
Lemma download_one_result (temp_dir : string) (local_files : list string)
    (s3_path : string) (w : World) :
  exists lines,
    download_one temp_dir local_files s3_path w
    = match fetched s3_path with
      | Some (key, bytes) =>
          let local_path :=
            path_join temp_dir (staged_name key (length local_files)) in
          (Return (local_files ++ [local_path]),
           mkWorld (self w) (<[local_path := bytes]> (files w)) (disk w)
                   (stdout w ++ map Line lines))
      | None =>
          (Return local_files,
           mkWorld (self w) (files w) (disk w) (stdout w ++ map Line lines))
      end.
Proof.
  unfold download_one, fetched, staged_name.
  set (p := if startswith s3_path "s3://" then py_slice_from 5 s3_path else s3_path).
  unfold try_except, bind, call, print, ret, throw, write_file.
  destruct (contains_slash p); cbn [negb];
    [|by exists [("⚠️  Invalid S3 path format: " +:+ p)]].
  destruct (split_first_slash p) as [bucket_name key].
  destruct (head_object bucket_name key) as [size0|cls msg]; cbn.
  - destruct (download_file bucket_name key) as [bytes|cls msg]; cbn.
    + eexists [_; _; _]. cbn. rewrite <- !app_assoc. reflexivity.
    + destruct cls; eexists [_; _; _]; cbn; rewrite <- !app_assoc; reflexivity.
  - destruct cls; eexists [_]; cbn; reflexivity.
Qed.

Lemma download_all_result (temp_dir : string) (s3_paths local_files : list string)
    (w : World) :
  exists lines,
    for_each (download_one temp_dir) s3_paths local_files w
    = (Return (local_files
               ++ map fst (staged_files temp_dir s3_paths (length local_files))),
       mkWorld (self w)
               (write_all (files w)
                          (staged_files temp_dir s3_paths (length local_files)))
               (disk w) (stdout w ++ map Line lines)).
Proof.
  revert local_files w.
  induction s3_paths as [|p0 s3_paths IH]; intros local_files w.
  - exists []. cbn. rewrite !app_nil_r. by destruct w.
  - cbn [for_each staged_files]. unfold bind at 1.
    destruct (download_one_result temp_dir local_files p0 w) as [lines1 ->].
    destruct (fetched p0) as [[key bytes]|].
    + cbn zeta.
      destruct (IH (local_files
                    ++ [path_join temp_dir (staged_name key (length local_files))])
                   (mkWorld (self w)
                      (<[path_join temp_dir (staged_name key (length local_files))
                         := bytes]> (files w))
                      (disk w) (stdout w ++ map Line lines1)))
        as [lines2 ->].
      exists (lines1 ++ lines2). cbn.
      rewrite length_app, Nat.add_1_r, <- !app_assoc, map_app. reflexivity.
    + destruct (IH local_files
                   (mkWorld (self w) (files w) (disk w) (stdout w ++ map Line lines1)))
        as [lines2 ->].
      exists (lines1 ++ lines2). cbn. rewrite <- !app_assoc, map_app. reflexivity.
Qed.

(** *** Names of files and of S3 paths *)








End LoadingFacts.

(** X1. [load_documents] never raises, whatever the files and the object
    store do: it returns the paths it was given followed by at most one
    staged file for each S3 path, leaves the chatbot and the saved indexes
    as they were, and prints no JSON. *)
Theorem load_documents_never_raises `{Capabilities} (file_paths s3_paths : list string)
    (w : World) :
  exists documents downloaded w',
    load_documents file_paths s3_paths w
    = (Return (documents, file_paths ++ downloaded), w')
    /\ (length downloaded <= length s3_paths)%nat
    /\ self w' = self w
    /\ disk w' = disk w
    /\ jsons (stdout w') = jsons (stdout w).
Proof.
  destruct (load_documents_outcome file_paths s3_paths w)
    as (dl & w1 & w' & Hrun & Hself & Hdisk & Hjson & Hlen & _).
  eexists _, dl, w'. by repeat split.
Qed.

(** X2. Without S3 paths, or without an S3 client, [load_documents] is the
    concatenation, in the order of the paths, of what each file
    contributes, the file of a path being looked up, and handed to its
    loader, under the name that [Path] prints for the path: a missing
    file, an unsupported extension or a loader that raises contributes
    nothing and does not stop the others. No document is tagged, the list
    of paths and the files are as before, and one line is printed for each
    path. *)
Theorem load_without_staging `{Capabilities} (file_paths s3_paths : list string)
    (w : World) :
  staging_dir (self w) s3_paths = None ->
  exists lines,
    load_documents file_paths s3_paths w
    = (Return (flat_map (file_docs None [] (files w)) (map str_path file_paths),
               file_paths),
       mkWorld (self w) (files w) (disk w) (stdout w ++ map Line lines))
    /\ length lines = length file_paths.
Proof.
  unfold staging_dir. intros Hnone.
  unfold load_documents, bind at 1, get_self.
  destruct (nonempty_list s3_paths && s3_client (self w))%bool; [done|].
  unfold finally, bind, ret.
  destruct (load_all_outcome None s3_paths file_paths [] w) as (lines & Hload & Hlen).
  cbn [app] in Hload. rewrite Hload. cbn.
  exists lines. split; [|done]. reflexivity.
Qed.

Lemma load_without_staging_witness :
  let caps := sample_caps answering_model ∅ in
  let w := mkWorld (sample_chatbot None)
                   {["a.txt" := "alpha"; "b.exe" := "beta"; "c.TXT" := "gamma"]} ∅ [] in
  staging_dir (self w) [] = None
  /\ map str_path ["./a.txt"; "missing.pdf"; "b.exe"; "c.TXT/"; "a.txt/."]
     = ["a.txt"; "missing.pdf"; "b.exe"; "c.TXT"; "a.txt"]
  /\ exists w',
       load_documents ["./a.txt"; "missing.pdf"; "b.exe"; "c.TXT/"; "a.txt/."] [] w
       = (Return ([ mkDocument "alpha" {["source" := "a.txt"]};
                    mkDocument "gamma" {["source" := "c.TXT"]};
                    mkDocument "alpha" {["source" := "a.txt"]} ],
                  ["./a.txt"; "missing.pdf"; "b.exe"; "c.TXT/"; "a.txt/."]),
          w')
       /\ files w' = files w.
Proof.
  intros caps w. split; [reflexivity|]. split; [reflexivity|].
  destruct (load_without_staging
              ["./a.txt"; "missing.pdf"; "b.exe"; "c.TXT/"; "a.txt/."] [] w
              eq_refl) as (lines & Hrun & _).
  eexists. split; [exact Hrun|reflexivity].
Defined.

(** X3. When [load_documents] stages S3 files, the temporary directory is
    emptied before it returns: afterwards no file lies below it, and every
    other file is as it was before the call. *)
Theorem load_documents_cleans_up `{Capabilities} (file_paths s3_paths : list string)
    (w : World) :
  mkdtemp <> EmptyString ->
  ends_with_slash mkdtemp = false ->
  staging_dir (self w) s3_paths = Some mkdtemp ->
  forall p,
    files (snd (load_documents file_paths s3_paths w)) !! p
    = if under mkdtemp p then None else files w !! p.
Proof.
  intros Hnamed Hslash Hstage p.
  destruct (load_documents_outcome file_paths s3_paths w)
    as (dl & w1 & w' & Hrun & _ & _ & _ & _ & _ & Hfiles & Hcase).
  rewrite Hrun. cbn [snd]. rewrite Hstage in Hcase.
  destruct Hcase as [_ Hclean]. rewrite (Hclean Hnamed p).
  destruct (under mkdtemp p) eqn:Hunder; [done|].
  destruct (decide (files w1 !! p = files w !! p)) as [Heq|Hne]; [done|].
  apply Hfiles in Hne. apply (staged_under _ _ Hnamed Hslash) in Hne. congruence.
Qed.

Lemma load_documents_cleans_up_witness :
  let caps := sample_caps answering_model {["bucket/docs/a.txt" := "hello"]} in
  let w := mkWorld (sample_chatbot None) {["notes.txt" := "local"]} ∅ [] in
  staging_dir (self w) ["s3://bucket/docs/a.txt"] = Some mkdtemp
  /\ fst (load_documents ["notes.txt"] ["s3://bucket/docs/a.txt"] w)
     = Return ([ mkDocument "local" {["source" := "notes.txt"]};
                 mkDocument "hello" {["source" := "/tmp/tmpdocs/a.txt";
                                      "source_type" := "s3";
                                      "s3_path" := "s3://bucket/docs/a.txt"]} ],
               ["notes.txt"; "/tmp/tmpdocs/a.txt"])
  /\ files (snd (load_documents ["notes.txt"] ["s3://bucket/docs/a.txt"] w))
       !! "/tmp/tmpdocs/a.txt" = None
  /\ files (snd (load_documents ["notes.txt"] ["s3://bucket/docs/a.txt"] w))
       !! "notes.txt" = Some "local".
Proof.
  intros caps w. split; [reflexivity|]. split; [vm_compute; reflexivity|].
  pose proof (load_documents_cleans_up ["notes.txt"] ["s3://bucket/docs/a.txt"] w
                ltac:(done) eq_refl eq_refl) as Hclean.
  split.
  - exact (Hclean "/tmp/tmpdocs/a.txt").
  - exact (Hclean "notes.txt").
Defined.

(** X4. Without an S3 client [download_from_s3] raises [ValueError] and
    does nothing. With one it never raises: it returns, in order, the
    staged files of the paths that can be fetched (bucket and key present,
    both S3 calls succeed) and writes exactly these files; a path that
    cannot be fetched is skipped. A key that ends in a slash is staged as
    [s3_file_<n>.bin], [n] being the number of files staged before it. *)
Theorem download_from_s3_result `{Capabilities} (s3_paths : list string)
    (temp_dir : string) (w : World) :
  exists lines,
    download_from_s3 s3_paths temp_dir w
    = if s3_client (self w)
      then (Return (map fst (staged_files temp_dir s3_paths 0)),
            mkWorld (self w)
                    (write_all (files w) (staged_files temp_dir s3_paths 0))
                    (disk w) (stdout w ++ map Line lines))
      else (Throw (Exception ValueError
                     "S3 client not initialized. Please check AWS credentials."),
            w).
Proof.
  unfold download_from_s3, bind, get_self.
  destruct (s3_client (self w)); cbn [negb]; [|by exists []].
  exact (download_all_result temp_dir s3_paths [] w).
Qed.

(** X5. The [s3://] prefix of an S3 path is optional: a path with the
    prefix is downloaded exactly as the same path without it. *)
Theorem s3_prefix_is_optional `{Capabilities} (temp_dir s3_path : string)
    (local_files : list string) (w : World) :
  startswith s3_path "s3://" = false ->
  download_one temp_dir local_files ("s3://" +:+ s3_path) w
  = download_one temp_dir local_files s3_path w.
Proof.
  intros Hpre. unfold download_one. rewrite Hpre.
  unfold startswith. rewrite prefix_app. reflexivity.
Qed.

Lemma s3_prefix_is_optional_witness :
  let caps := sample_caps answering_model {["bucket/docs/a.txt" := "hello"]} in
  let w := mkWorld (sample_chatbot None) ∅ ∅ [] in
  startswith "bucket/docs/a.txt" "s3://" = false
  /\ download_one "/tmp/tmpdocs" [] "s3://bucket/docs/a.txt" w
     = download_one "/tmp/tmpdocs" [] "bucket/docs/a.txt" w
  /\ fst (download_one "/tmp/tmpdocs" [] "bucket/docs/a.txt" w)
     = Return ["/tmp/tmpdocs/a.txt"].
Proof.
  intros caps w. split; [reflexivity|].
  split; [|reflexivity].
  exact (s3_prefix_is_optional "/tmp/tmpdocs" "bucket/docs/a.txt" [] w eq_refl).
Defined.

(** X6. Two S3 paths whose keys have the same basename are staged under
    the same local name: the second download overwrites the first, the
    returned list holds that local path twice, and the staged file has the
    bytes of the second object. *)
Theorem same_basename_overwrites `{Capabilities} (temp_dir p1 p2 key1 key2 bytes1 bytes2 : string)
    (w : World) :
  s3_client (self w) = true ->
  fetched p1 = Some (key1, bytes1) ->
  fetched p2 = Some (key2, bytes2) ->
  basename key1 <> EmptyString ->
  basename key2 = basename key1 ->
  exists w',
    download_from_s3 [p1; p2] temp_dir w
    = (Return [path_join temp_dir (basename key1);
               path_join temp_dir (basename key1)], w')
    /\ files w' !! path_join temp_dir (basename key1) = Some bytes2.
Proof.
  intros Hclient Hf1 Hf2 Hne Heq.
  unfold download_from_s3, bind, get_self. rewrite Hclient. cbn [negb].
  destruct (download_all_result temp_dir [p1; p2] [] w) as [lines ->].
  cbn [staged_files]. rewrite Hf1, Hf2. cbn [staged_files length].
  unfold staged_name. rewrite Heq.
  apply String.eqb_neq in Hne. rewrite Hne.
  eexists. split; [reflexivity|].
  cbn. apply lookup_insert_eq.
Qed.

Lemma same_basename_overwrites_witness :
  let caps := sample_caps answering_model
                {["bucket/docs/a.txt" := "hello"; "other/x/a.txt" := "bye"]} in
  let w := mkWorld (sample_chatbot None) ∅ ∅ [] in
  fetched "s3://bucket/docs/a.txt" = Some ("docs/a.txt", "hello")
  /\ fetched "other/x/a.txt" = Some ("x/a.txt", "bye")
  /\ exists w',
       download_from_s3 ["s3://bucket/docs/a.txt"; "other/x/a.txt"] "/tmp/tmpdocs" w
       = (Return ["/tmp/tmpdocs/a.txt"; "/tmp/tmpdocs/a.txt"], w')
       /\ files w' !! "/tmp/tmpdocs/a.txt" = Some "bye".
Proof.
  intros caps w. split; [reflexivity|]. split; [reflexivity|].
  exact (same_basename_overwrites "/tmp/tmpdocs" "s3://bucket/docs/a.txt"
           "other/x/a.txt" "docs/a.txt" "x/a.txt" "hello" "bye" w
           eq_refl eq_refl eq_refl ltac:(done) eq_refl).
Defined.



(** X8. Tagging a downloaded document only writes the entries
    "source_type" and "s3_path": the text and every other metadata entry
    are as the loader made them, and when no supplied path has the name of
    the file, "s3_path" is left as it was too. *)
Theorem tagging_keeps_other_metadata `{Capabilities} (s3_paths : list string)
    (name entry : string) (doc : Document) :
  entry <> "source_type" ->
  (entry <> "s3_path" \/ original_s3_path s3_paths name = None) ->
  metadata (tag_s3 s3_paths name doc) !! entry = metadata doc !! entry
  /\ page_content (tag_s3 s3_paths name doc) = page_content doc.
Proof.
  intros Hsrc Hpath. split; [|apply tag_s3_content].
  unfold tag_s3.
  destruct (original_s3_path s3_paths name) as [p|]; cbn [metadata].
  - destruct Hpath as [Hpath|Hpath]; [|done].
    rewrite lookup_insert_ne by done. by rewrite lookup_insert_ne.
  - by rewrite lookup_insert_ne.
Qed.

Lemma tagging_keeps_other_metadata_witness :
  let caps := sample_caps answering_model ∅ in
  let doc := mkDocument "page one" {["source" := "/tmp/tmpdocs/r.pdf"; "page" := "0"]} in
  metadata (tag_s3 ["bucket/reports/r.pdf"] "r.pdf" doc) !! "page" = Some "0"
  /\ metadata (tag_s3 ["bucket/reports/r.pdf"] "s3_file_0.bin" doc) !! "s3_path" = None.
Proof.
  intros caps doc. split.
  - exact (proj1 (tagging_keeps_other_metadata ["bucket/reports/r.pdf"] "r.pdf"
                    "page" doc ltac:(done) ltac:(by left))).
  - exact (proj1 (tagging_keeps_other_metadata ["bucket/reports/r.pdf"]
                    "s3_file_0.bin" "s3_path" doc ltac:(done) ltac:(by right))).
Defined.

(** ** The methods and the state of the chatbot *)

Section MethodFacts.

Context `{Capabilities}.

(** A query changes nothing but the memory. *)
Lemma query_world (question : string) (w : World) :
  exists m,
    snd (query question w)
    = mkWorld (set_memory m (self w)) (files w) (disk w) (stdout w)
    /\ Memory.k m = Memory.k (memory (self w)).
Proof.
  unfold query, bind, get_self.
  destruct (qa_chain (self w)) as [ch|].
  - unfold try_except, bind, chain_call.
    destruct (retrieve _ _ _) as [records|cls msg]; cbn;
      [|by exists (memory (self w))].
    destruct (llm _) as [answer|cls msg]; cbn.
    + by eexists.
    + by exists (memory (self w)).
  - exists (memory (self w)). cbn. by rewrite set_memory_same, world_eta.
Qed.


Lemma process_documents_result (documents : list Document) (w : World) :
  documents <> [] ->
  exists line,
    process_documents documents w
    = match from_documents (TextSplitter.split_documents documents) with
      | Ok ix =>
          (Return tt,
           mkWorld (set_qa_chain (Some (from_llm ix))
                      (set_vectorstore (Some ix) (self w)))
                   (files w) (disk w)
                   (stdout w ++ [Line line; Line "✅ Vector store created successfully"]))
      | Raise cls msg =>
          (Throw (Exception cls msg),
           mkWorld (self w) (files w) (disk w) (stdout w ++ [Line line]))
      end.
Proof.
  intros Hne. destruct documents as [|d documents]; [done|].
  unfold process_documents, bind, print, call, modify_self.
  eexists.
  destruct (from_documents _) as [ix|cls msg]; cbn.
  - rewrite <- app_assoc. reflexivity.
  - reflexivity.
Qed.

Lemma list_s3_objects_self (bucket_name prefix : string) (max_keys : Z) (w : World) :
  self (snd (list_s3_objects bucket_name prefix max_keys w)) = self w.
Proof.
  unfold list_s3_objects, bind, get_self.
  destruct (negb (s3_client (self w))); [done|].
  unfold try_except, bind, call.
  destruct (list_objects_v2 bucket_name prefix max_keys) as [r|cls msg]; cbn;
    [done|by destruct cls].
Qed.

Lemma save_vectorstore_self (path : string) (w : World) :
  self (snd (save_vectorstore path w)) = self w.
Proof.
  unfold save_vectorstore, bind, get_self.
  by destruct (vectorstore (self w)).
Qed.

(** What a call leaves of the chatbot: the settings are never touched, and
    index, chain and memory change together as the method says. *)
Lemma after_invariants (m : method) (w : World) :
  chain_matches_index (self w) -> capped (memory (self w)) ->
  chain_matches_index (self (after m w))
  /\ capped (memory (self (after m w)))
  /\ google_api_key (self (after m w)) = google_api_key (self w)
  /\ model_name (self (after m w)) = model_name (self w)
  /\ s3_client (self (after m w)) = s3_client (self w).
Proof.
  intros Hchain Hcap. destruct m as [fps s3|docs|q| |path|path|b pre n|s3 d];
    cbn [after].
  - by rewrite keeps_self_load_documents.
  - destruct docs as [|d docs]; [done|].
    destruct (process_documents_result (d :: docs) w ltac:(done)) as [line ->].
    by destruct (from_documents _).
  - pose proof (query_capped q w Hcap) as Hcap'.
    destruct (query_world q w) as (m & Hw & _).
    rewrite Hw in Hcap' |- *. cbn in Hcap' |- *.
    unfold chain_matches_index in *. cbn.
    split; [done|]. split; [done|]. by repeat split.
  - cbn. unfold capped, chain_matches_index in *. cbn.
    destruct Hcap. repeat split; try done. lia.
  - by rewrite save_vectorstore_self.
  - unfold load_vectorstore, try_except, bind, load_local.
    destruct (disk w !! path) as [b|]; cbn; [|done].
    by destruct (deserialize b).
  - by rewrite list_s3_objects_self.
  - by rewrite keeps_self_download_from_s3.
Qed.

End MethodFacts.

(** X9. With at least one document, [process_documents] succeeds or fails
    with the build of the index. When the build raises, the exception
    goes to the caller and the chatbot keeps the index and the chain it
    had. When it succeeds, index and chain are replaced together, the
    chain retrieving 5 chunks from the new index, and the conversation
    memory is kept. *)
Theorem process_documents_builds_or_raises `{Capabilities}
    (documents : list Document) (w : World) :
  documents <> [] ->
  match from_documents (TextSplitter.split_documents documents) with
  | Ok ix =>
      exists w',
        process_documents documents w = (Return tt, w')
        /\ vectorstore (self w') = Some ix
        /\ qa_chain (self w') = Some (mkChain ix 5)
        /\ memory (self w') = memory (self w)
        /\ files w' = files w /\ disk w' = disk w
  | Raise cls msg =>
      exists w',
        process_documents documents w = (Throw (Exception cls msg), w')
        /\ self w' = self w
        /\ files w' = files w /\ disk w' = disk w
  end.
Proof.
  intros Hne.
  destruct (process_documents_result documents w Hne) as [line Hrun].
  destruct (from_documents _) as [ix|cls msg];
    eexists; (split; [exact Hrun|]); by repeat split.
Qed.

Lemma process_documents_builds_or_raises_witness :
  let caps := sample_caps answering_model ∅ in
  let w := mkWorld (sample_chatbot None) ∅ ∅ [] in
  let doc := mkDocument "Paris is the capital of France." {["source" := "a.txt"]} in
  exists w',
    process_documents [doc] w = (Return tt, w')
    /\ vectorstore (self w') = Some [mkRecord 0 [31%Z] doc]
    /\ memory (self w') = memory (self w).
Proof.
  intros caps w doc.
  pose proof (process_documents_builds_or_raises [doc] w ltac:(done)) as Hp.
  change (from_documents (TextSplitter.split_documents [doc]))
    with (Ok [mkRecord 0 [31%Z] doc]) in Hp.
  destruct Hp as (w' & Hrun & Hvs & _ & Hmem & _).
  exists w'. by repeat split.
Defined.

(** X10. Whatever methods are called on the chatbot, in whatever order
    and whether they return or raise, its chain is the chain over its
    current index, its memory holds at most 10 turns, and its API key,
    model name and S3 client are those it was created with. *)
Theorem chatbot_invariants `{Capabilities} (calls : list method) (w : World) :
  chain_matches_index (self w) ->
  capped (memory (self w)) ->
  let w' := after_all calls w in
  chain_matches_index (self w')
  /\ capped (memory (self w'))
  /\ google_api_key (self w') = google_api_key (self w)
  /\ model_name (self w') = model_name (self w)
  /\ s3_client (self w') = s3_client (self w).
Proof.
  cbn zeta. unfold after_all. revert w.
  induction calls as [|m calls IH]; intros w Hchain Hcap; [done|].
  cbn [fold_left].
  destruct (after_invariants m w Hchain Hcap) as (Hc1 & Hm1 & Hk1 & Hn1 & Hs1).
  destruct (IH (after m w) Hc1 Hm1) as (Hc & Hm & Hk & Hn & Hs).
  split; [done|]. split; [done|]. repeat split; congruence.
Qed.

Lemma chatbot_invariants_witness :
  let caps := sample_caps answering_model ∅ in
  let w := mkWorld (sample_chatbot None) {["a.txt" := "Paris"]} ∅ [] in
  let calls := [ CallQuery "early"; CallLoad "nowhere";
                 CallProcessDocuments [mkDocument "Paris" ∅];
                 CallQuery "What is the capital of France?";
                 CallReset; CallSave "idx"; CallLoad "idx" ] in
  chain_matches_index (self w)
  /\ capped (memory (self w))
  /\ chain_matches_index (self (after_all calls w))
  /\ capped (memory (self (after_all calls w))).
Proof.
  intros caps w calls.
  assert (Hchain : chain_matches_index (self w)) by reflexivity.
  assert (Hcap : capped (memory (self w))) by (split; [reflexivity|cbn; lia]).
  destruct (chatbot_invariants calls w Hchain Hcap) as (Hc & Hm & _).
  split; [exact Hchain|]. split; [exact Hcap|]. split; [exact Hc|exact Hm].
Defined.



(** X12. [query] never raises and always returns a dictionary with an
    "answer" and a "sources" entry; it has an "error" entry exactly when
    it has no "question" entry, that is when no answer was returned. It
    writes no file and leaves index and chain alone. *)
Theorem query_result_shape `{Capabilities} (question : string) (w : World) :
  exists d w',
    query question w = (Return d, w')
    /\ dict_has d "answer" = true
    /\ dict_has d "sources" = true
    /\ dict_has d "error" = negb (dict_has d "question")
    /\ vectorstore (self w') = vectorstore (self w)
    /\ qa_chain (self w') = qa_chain (self w)
    /\ files w' = files w /\ disk w' = disk w.
Proof.
  unfold query, bind, get_self.
  destruct (qa_chain (self w)) as [ch|] eqn:Hq.
  - unfold try_except, bind.
    destruct (chain_call ch (memory (self w)) question) as [[resp|cls msg] mem];
      cbn; eexists _, _; (split; [reflexivity|]); cbn; repeat split; done.
  - eexists _, _. split; [reflexivity|]. cbn. repeat split; try done.
Qed.

(** ** The command line *)

Section MainFacts.

Context `{Capabilities}.

Local Open Scope chatbot_scope.

Lemma init_prints_lines (k1 k2 k3 k4 : option string) (lines : list out)
    (r : result ContextChatbot) :
  init k1 k2 k3 k4 = (lines, r) -> jsons lines = [].
Proof.
  unfold init. destruct (negb _); [by intros [= <- _]|].
  destruct (_ && _)%bool; [|destruct default_credentials];
    by intros [= <- _].
Qed.

Lemma dict_get_set (d : dict) (k : string) (v : value) :
  dict_get (dict_set d k v) k = Some v.
Proof.
  induction d as [|[k' v'] d IH]; cbn.
  - by rewrite String.eqb_refl.
  - destruct (String.eqb_spec k' k) as [->|Hne]; cbn.
    + by rewrite String.eqb_refl.
    + apply String.eqb_neq in Hne. by rewrite Hne.
Qed.

(** [list_s3_objects] with a client: the listing that the store gave, or
    nothing when the store answers with a client error; any other
    exception goes to the caller. One line is printed when it returns. *)
Lemma list_s3_objects_result (bucket_name prefix : string) (max_keys : Z)
    (w : World) :
  s3_client (self w) = true ->
  exists line,
    list_s3_objects bucket_name prefix max_keys w
    = match list_objects_v2 bucket_name prefix max_keys with
      | Ok (Some contents) =>
          (Return (listed bucket_name contents),
           mkWorld (self w) (files w) (disk w) (stdout w ++ [Line line]))
      | Ok None | Raise ClientError _ =>
          (Return [],
           mkWorld (self w) (files w) (disk w) (stdout w ++ [Line line]))
      | Raise cls msg => (Throw (Exception cls msg), w)
      end.
Proof.
  intros Hclient. unfold list_s3_objects, bind, get_self. rewrite Hclient.
  cbn [negb]. unfold try_except, bind, call, print.
  destruct (list_objects_v2 bucket_name prefix max_keys) as [[contents|]|cls msg];
    cbn; [by eexists|by eexists|].
  destruct cls; cbn; by eexists.
Qed.

Lemma list_s3_objects_outcome (bucket_name prefix : string) (max_keys : Z)
    (w : World) :
  exists r w',
    list_s3_objects bucket_name prefix max_keys w = (r, w')
    /\ jsons (stdout w') = jsons (stdout w)
    /\ match r with
       | Throw (SystemExit _) => False
       | _ => True
       end.
Proof.
  unfold list_s3_objects, bind, get_self.
  destruct (negb (s3_client (self w))); [by eexists _, _|].
  unfold try_except, bind, call, print.
  destruct (list_objects_v2 bucket_name prefix max_keys) as [r|cls msg]; cbn.
  - eexists _, _. split; [reflexivity|]. cbn. by rewrite jsons_snoc_line.
  - destruct cls; cbn; eexists _, _; (split; [reflexivity|]); cbn;
      rewrite ?jsons_snoc_line; done.
Qed.

Lemma process_documents_outcome (documents : list Document) (w : World) :
  exists r w',
    process_documents documents w = (r, w')
    /\ jsons (stdout w') = jsons (stdout w)
    /\ match r with
       | Throw (SystemExit _) => False
       | _ => True
       end.
Proof.
  destruct documents as [|d documents].
  - eexists _, _. split; [reflexivity|]. cbn. by rewrite jsons_snoc_line.
  - destruct (process_documents_result (d :: documents) w ltac:(done)) as [line ->].
    destruct (from_documents _); eexists _, _; (split; [reflexivity|]); cbn;
      rewrite jsons_app; cbn; by rewrite app_nil_r.
Qed.

(** The branch of [main] for an action prints no JSON itself; when it
    returns, the dictionary has status "success"; when it exits, the code
    is 1. *)
Lemma run_action_outcome (args : Args) (w : World) :
  exists r w',
    run_action args w = (r, w')
    /\ jsons (stdout w') = jsons (stdout w)
    /\ match r with
       | Return d => dict_get d "status" = Some (VStr "success")
       | Throw (SystemExit code) => code = 1%Z
       | Throw (Exception _ _) => True
       end.
Proof.
  unfold run_action. destruct (action args).
  - destruct (_ && _)%bool.
    { eexists _, _. split; [reflexivity|]. cbn. by rewrite jsons_snoc_line. }
    unfold bind at 1.
    destruct (load_documents_outcome (or_empty (arg_files args))
                (or_empty (arg_s3_paths args)) w)
      as (dl & w1 & w2 & -> & _ & _ & Hjson & _).
    unfold bind.
    destruct (process_documents_outcome
                (flat_map (file_docs (staging_dir (self w) (or_empty (arg_s3_paths args)))
                             (or_empty (arg_s3_paths args)) (files w1))
                          (map str_path (or_empty (arg_files args) ++ dl))) w2)
      as (r & w3 & -> & Hjson3 & Hr).
    destruct r as [[]|[cls msg|code]]; eexists _, _;
      (split; [reflexivity|]); split; try congruence; done.
  - destruct (negb _).
    { eexists _, _. split; [reflexivity|]. cbn. by rewrite jsons_snoc_line. }
    unfold bind.
    destruct (query_returns (or_empty_string (arg_question args)) w)
      as (d & w' & Hq).
    destruct (query_world (or_empty_string (arg_question args)) w) as (m & Hw & _).
    rewrite Hq in Hw |- *. cbn in Hw. subst w'.
    eexists _, _. split; [reflexivity|]. split; [done|]. apply dict_get_set.
  - eexists _, _. split; [reflexivity|]. cbn. by rewrite jsons_snoc_line.
  - destruct (negb _).
    { eexists _, _. split; [reflexivity|]. cbn. by rewrite jsons_snoc_line. }
    unfold bind.
    destruct (list_s3_objects_outcome (or_empty_string (arg_s3_bucket args))
                (or_empty_string (arg_s3_prefix args)) 100 w)
      as (r & w' & -> & Hjson & Hr).
    destruct r as [objs|[cls msg|code]]; eexists _, _;
      (split; [reflexivity|]); by split.
Qed.

(** The text rendering prints lines only and never raises. *)
Lemma print_text_outcome (d : dict) (w : World) :
  exists w', print_text d w = (Return tt, w')
             /\ jsons (stdout w') = jsons (stdout w).
Proof.
  assert (Hobjs : forall (objs : list S3Object) w0,
             exists w',
               for_each (fun _ obj =>
                           print ("  - " +:+ key obj +:+ " (" +:+ pretty (size obj)
                                    +:+ " bytes)")) objs tt w0
               = (Return tt, w')
               /\ jsons (stdout w') = jsons (stdout w0)).
  { induction objs as [|o objs IH]; intros w0; [by exists w0|].
    cbn [for_each]. unfold bind, print at 1.
    destruct (IH (mkWorld (self w0) (files w0) (disk w0)
                    (stdout w0 ++ [Line ("  - " +:+ key o +:+ " (" +:+ pretty (size o)
                                           +:+ " bytes)")])))
      as (w' & -> & Hj).
    exists w'. split; [done|]. rewrite Hj. cbn. apply jsons_snoc_line. }
  unfold print_text, bind.
  set (c1 := match dict_get d "answer" with Some (VStr a) => _ | _ => _ end).
  assert (H1 : exists w1, c1 w = (Return tt, w1)
                          /\ jsons (stdout w1) = jsons (stdout w)).
  { subst c1. destruct (dict_get d "answer") as [[a|n|l|l]|];
      eexists; (split; [reflexivity|]); cbn; rewrite ?jsons_snoc_line; done. }
  destruct H1 as (w1 & -> & Hj1).
  set (c2 := match dict_get d "message" with Some (VStr a) => _ | _ => _ end).
  assert (H2 : exists w2, c2 w1 = (Return tt, w2)
                          /\ jsons (stdout w2) = jsons (stdout w1)).
  { subst c2. destruct (dict_get d "message") as [[a|n|l|l]|];
      eexists; (split; [reflexivity|]); cbn; rewrite ?jsons_snoc_line; done. }
  destruct H2 as (w2 & -> & Hj2).
  destruct (dict_get d "objects") as [[a|n|l|objs]|];
    try (exists w2; split; [reflexivity|congruence]).
  unfold bind, print at 1.
  destruct (Hobjs objs (mkWorld (self w2) (files w2) (disk w2)
                          (stdout w2 ++ [Line ("Found " +:+ pretty (length objs)
                                                 +:+ " objects:")])))
    as (w3 & -> & Hj3).
  exists w3. split; [done|]. rewrite Hj3. cbn. rewrite jsons_snoc_line. congruence.
Qed.

End MainFacts.

(** X13. Without a Google API key, given neither as an argument nor in
    the environment, [main] does nothing of what was asked, whatever the
    action: the constructor raises, [main] reports the message with
    status "error" (or as one line of text) and exits with code 1. *)
Theorem missing_api_key_is_reported `{Capabilities} (args : Args)
    (files0 : gmap string string) (disk0 : gmap string blob) :
  truthy (py_or (arg_api_key args) (getenv "GOOGLE_API_KEY")) = false ->
  main args files0 disk0
  = mkRun 1 (report_error args
               "Google API Key is required. Set GOOGLE_API_KEY environment variable.").
Proof.
  intros Hkey. unfold main, init. rewrite Hkey. reflexivity.
Qed.

Lemma missing_api_key_is_reported_witness :
  let caps := bare_caps in
  truthy (py_or None (getenv "GOOGLE_API_KEY")) = false
  /\ main (sample_args Query None None (Some "hi")) ∅ ∅
     = mkRun 1
         [Json [ ("status", VStr "error");
                 ("error", VStr "Google API Key is required. Set GOOGLE_API_KEY environment variable.");
                 ("message", VStr "An error occurred: Google API Key is required. Set GOOGLE_API_KEY environment variable.") ]].
Proof.
  intros caps. split; [reflexivity|].
  exact (missing_api_key_is_reported (sample_args Query None None (Some "hi")) ∅ ∅
           eq_refl).
Defined.

(** X14. The list-s3 action reports what the store listed: the count is
    the number of objects and the S3 path of each object is the bucket, a
    slash and the key. A store that answers with a client error, like a
    response without contents, is reported as an empty listing with status
    "success" and count 0. *)
Theorem listing_is_reported `{Capabilities} (args : Args) (w : World)
    (contents : list (string * Z * string)) :
  action args = ListS3 ->
  truthy (arg_s3_bucket args) = true ->
  s3_client (self w) = true ->
  (list_objects_v2 (or_empty_string (arg_s3_bucket args))
                   (or_empty_string (arg_s3_prefix args)) 100 = Ok (Some contents)
   \/ (contents = []
       /\ (list_objects_v2 (or_empty_string (arg_s3_bucket args))
                           (or_empty_string (arg_s3_prefix args)) 100 = Ok None
           \/ exists msg,
                list_objects_v2 (or_empty_string (arg_s3_bucket args))
                                (or_empty_string (arg_s3_prefix args)) 100
                = Raise ClientError msg))) ->
  exists w',
    run_action args w
    = (Return [ ("status", VStr "success");
                ("bucket", VStr (or_empty_string (arg_s3_bucket args)));
                ("prefix", VStr (or_empty_string (arg_s3_prefix args)));
                ("objects", VObjects (listed (or_empty_string (arg_s3_bucket args))
                                             contents));
                ("count", VInt (Z.of_nat (length contents))) ],
       w')
    /\ Forall (fun o => s3_path o
                        = or_empty_string (arg_s3_bucket args) +:+ "/" +:+ key o)
              (listed (or_empty_string (arg_s3_bucket args)) contents).
Proof.
  intros Ha Hb Hclient Hlist.
  unfold run_action. rewrite Ha, Hb. cbn [negb]. unfold bind.
  destruct (list_s3_objects_result (or_empty_string (arg_s3_bucket args))
              (or_empty_string (arg_s3_prefix args)) 100 w Hclient) as [line ->].
  eexists. split.
  - destruct Hlist as [-> | [-> [-> | [msg ->]]]]; cbn.
    + unfold listed at 2. rewrite length_map. reflexivity.
    + reflexivity.
    + reflexivity.
  - apply List.Forall_forall. intros o Hin. unfold listed in Hin.
    apply in_map_iff in Hin. destruct Hin as ([[k sz] lm] & <- & _). reflexivity.
Qed.

Lemma listing_is_reported_witness :
  let caps := bare_caps in
  let args := mkArgs ListS3 None None (Some "reports") None None None None None
                     (Some "us-east-1") OutJson in
  let w := mkWorld (sample_chatbot None) ∅ ∅ [] in
  list_objects_v2 "reports" EmptyString 100 = Raise ClientError "AccessDenied"
  /\ exists w',
       run_action args w
       = (Return [ ("status", VStr "success");
                   ("bucket", VStr "reports");
                   ("prefix", VStr EmptyString);
                   ("objects", VObjects []);
                   ("count", VInt 0) ],
          w').
Proof.
  intros caps args w. split; [reflexivity|].
  destruct (listing_is_reported args w [] eq_refl eq_refl eq_refl) as (w' & Hrun & _).
  { right. split; [reflexivity|]. right. by exists "AccessDenied". }
  exists w'. exact Hrun.
Defined.

(** X15. In JSON mode a run of [main] ends in one of three ways: exit
    code 0 and exactly one JSON document, with status "success"; exit
    code 1 and exactly one JSON document, the error dictionary with status
    "error", when an exception reached [main]; or exit code 1 and no JSON
    document at all, when the arguments were rejected. *)
Theorem main_status_and_exit_code `{Capabilities} (args : Args)
    (files0 : gmap string string) (disk0 : gmap string blob) :
  arg_output args = OutJson ->
  let r := main args files0 disk0 in
  (exit_code r = 0%Z
   /\ exists d, results_of r = [d] /\ dict_get d "status" = Some (VStr "success"))
  \/ (exit_code r = 1%Z
      /\ (results_of r = [] \/ exists msg, results_of r = [error_result msg])).
Proof.
  intros Hout. cbn zeta. unfold main.
  destruct (init _ _ _ _) as [lines [chatbot|cls msg]] eqn:Hinit.
  - apply init_prints_lines in Hinit. unfold bind.
    destruct (run_action_outcome args (mkWorld chatbot files0 disk0 lines))
      as (r & w' & -> & Hjson & Hr).
    cbn [stdout] in Hjson.
    destruct r as [d|[cls msg|code]].
    + unfold output_result. rewrite Hout. cbn. left. split; [done|].
      exists d. change (results_of ?r) with (jsons (printed r)). cbn [printed stdout].
      rewrite jsons_app, Hjson, Hinit. by split.
    + right. split; [done|]. right. exists msg.
      change (results_of ?r) with (jsons (printed r)). cbn [printed].
      unfold report_error. rewrite Hout, jsons_app, Hjson, Hinit. reflexivity.
    + subst code. right. split; [done|]. left.
      change (results_of ?r) with (jsons (printed r)). cbn [printed]. congruence.
  - apply init_prints_lines in Hinit.
    right. split; [done|]. right. exists msg.
    change (results_of ?r) with (jsons (printed r)). cbn [printed].
    unfold report_error. rewrite Hout, jsons_app, Hinit. reflexivity.
Qed.

Lemma main_status_and_exit_code_witness :
  let caps := sample_caps answering_model ∅ in
  let r := main (sample_args Load (Some ["a.txt"]) None None) {["a.txt" := "Paris"]} ∅ in
  exit_code r = 0%Z
  /\ exists d, results_of r = [d] /\ dict_get d "status" = Some (VStr "success").
Proof.
  intros caps r.
  destruct (main_status_and_exit_code (sample_args Load (Some ["a.txt"]) None None)
              {["a.txt" := "Paris"]} ∅ eq_refl) as [Hok | [Hexit _]].
  - exact Hok.
  - exfalso. vm_compute in Hexit. discriminate Hexit.
Defined.

(** X16. Arguments that [main] rejects (a load without any path, a query
    without a question, a listing without a bucket) make it print one
    line of text and exit with code 1, after the chatbot was created: no
    JSON document is printed, whatever the output format. *)
Theorem rejected_arguments_exit `{Capabilities} (args : Args)
    (files0 : gmap string string) (disk0 : gmap string blob)
    (lines : list out) (chatbot : ContextChatbot) :
  init (arg_api_key args) (arg_aws_access_key args) (arg_aws_secret_key args)
       (arg_aws_region args) = (lines, Ok chatbot) ->
  (action args = Load /\ or_empty (arg_files args) = []
                      /\ or_empty (arg_s3_paths args) = [])
  \/ (action args = Query /\ truthy (arg_question args) = false)
  \/ (action args = ListS3 /\ truthy (arg_s3_bucket args) = false) ->
  exists line,
    main args files0 disk0 = mkRun 1 (lines ++ [Line line])
    /\ results_of (main args files0 disk0) = [].
Proof.
  intros Hinit Hbad.
  pose proof (init_prints_lines _ _ _ _ _ _ Hinit) as Hlines.
  unfold main. rewrite Hinit. unfold bind, run_action.
  destruct Hbad as [(-> & -> & ->) | [(-> & ->) | (-> & ->)]]; cbn;
    eexists; (split; [reflexivity|]);
    change (results_of ?r) with (jsons (printed r)); cbn [printed];
    by rewrite jsons_snoc_line.
Qed.

Lemma rejected_arguments_exit_witness :
  let caps := sample_caps answering_model ∅ in
  exists line,
    main (sample_args Query None None None) ∅ ∅
    = mkRun 1 ([ Line "✅ AWS S3 client initialized with default credentials";
                 Line "✅ Chatbot initialized successfully" ] ++ [Line line])
    /\ results_of (main (sample_args Query None None None) ∅ ∅) = [].
Proof.
  intros caps.
  exact (@rejected_arguments_exit caps (sample_args Query None None None) ∅ ∅
           [ Line "✅ AWS S3 client initialized with default credentials";
             Line "✅ Chatbot initialized successfully" ]
           (mkChatbot "key" "gemini-pro" None None Memory.create "us-east-1" true)
           eq_refl ltac:(right; left; by split)).
Defined.

(** X17. In text mode [main] never prints the status: no JSON document is
    printed, whether the run succeeds or fails, and the exit code is 0 or
    1. *)
Theorem text_mode_prints_no_status `{Capabilities} (args : Args)
    (files0 : gmap string string) (disk0 : gmap string blob) :
  arg_output args = OutText ->
  results_of (main args files0 disk0) = []
  /\ (exit_code (main args files0 disk0) = 0%Z
      \/ exit_code (main args files0 disk0) = 1%Z).
Proof.
  intros Hout. unfold main.
  destruct (init _ _ _ _) as [lines [chatbot|cls msg]] eqn:Hinit.
  - apply init_prints_lines in Hinit. unfold bind.
    destruct (run_action_outcome args (mkWorld chatbot files0 disk0 lines))
      as (r & w' & -> & Hjson & Hr).
    cbn [stdout] in Hjson.
    destruct r as [d|[cls msg|code]].
    + unfold output_result. rewrite Hout.
      destruct (print_text_outcome d w') as (w'' & -> & Hj).
      change (results_of ?r) with (jsons (printed r)). cbn [printed exit_code].
      split; [congruence|by left].
    + change (results_of ?r) with (jsons (printed r)). cbn [printed exit_code].
      unfold report_error. rewrite Hout, jsons_snoc_line.
      split; [congruence|by right].
    + subst code. change (results_of ?r) with (jsons (printed r)). cbn [printed exit_code].
      split; [congruence|by right].
  - apply init_prints_lines in Hinit.
    change (results_of ?r) with (jsons (printed r)). cbn [printed exit_code].
    unfold report_error. rewrite Hout, jsons_snoc_line. by split; [|right].
Qed.

Lemma text_mode_prints_no_status_witness :
  let caps := sample_caps answering_model ∅ in
  let args := mkArgs Query None None None None (Some "hi") None None None
                     (Some "us-east-1") OutText in
  main args ∅ ∅
  = mkRun 0 [ Line "✅ AWS S3 client initialized with default credentials";
              Line "✅ Chatbot initialized successfully";
              Line "Answer: Please upload documents first before asking questions." ]
  /\ results_of (main args ∅ ∅) = [].
Proof.
  intros caps args. split; [reflexivity|].
  exact (proj1 (text_mode_prints_no_status args ∅ ∅ eq_refl)).
Defined.

(** X18. The counts that a load reports: "documents_count" is the number
    of documents loaded, "s3_files" is the number of S3 paths given,
    fetched or not, and "local_files" is the number of local paths given
    plus the number of files downloaded, because the downloaded files are
    appended to the caller's own list. *)
Theorem load_counts `{Capabilities} (args : Args) (w w' : World) (d : dict) :
  action args = Load ->
  run_action args w = (Return d, w') ->
  exists documents downloaded,
    fst (load_documents (or_empty (arg_files args)) (or_empty (arg_s3_paths args)) w)
    = Return (documents, or_empty (arg_files args) ++ downloaded)
    /\ (length downloaded <= length (or_empty (arg_s3_paths args)))%nat
    /\ dict_get d "documents_count" = Some (VInt (Z.of_nat (length documents)))
    /\ dict_get d "local_files"
       = Some (VInt (Z.of_nat (length (or_empty (arg_files args))
                                + length downloaded)))
    /\ dict_get d "s3_files"
       = Some (VInt (Z.of_nat (length (or_empty (arg_s3_paths args))))).
Proof.
  intros Ha. unfold run_action. rewrite Ha.
  destruct (_ && _)%bool; [done|].
  unfold bind at 1.
  destruct (load_documents_outcome (or_empty (arg_files args))
              (or_empty (arg_s3_paths args)) w)
    as (dl & w1 & w2 & -> & _ & _ & _ & Hlen & _).
  unfold bind.
  destruct (process_documents _ w2) as [[[]|e] w3]; [|done].
  intros [= <- _]. eexists _, dl.
  split; [reflexivity|]. split; [exact Hlen|].
  rewrite length_app.
  split; [reflexivity|]. split; reflexivity.
Qed.

Lemma load_counts_witness :
  let caps := sample_caps answering_model {["bucket/docs/a.txt" := "hello"]} in
  let args := sample_args Load (Some ["notes.txt"])
                (Some ["s3://bucket/docs/a.txt"; "bucket/missing.txt"]) None in
  let w := mkWorld (sample_chatbot None) {["notes.txt" := "local"]} ∅ [] in
  let d := [ ("status", VStr "success");
             ("message", VStr "Successfully loaded 2 documents");
             ("documents_count", VInt 2);
             ("local_files", VInt 2);
             ("s3_files", VInt 2) ] in
  fst (run_action args w) = Return d
  /\ exists downloaded : list string,
       (length downloaded <= 2)%nat
       /\ dict_get d "local_files" = Some (VInt (Z.of_nat (1 + length downloaded))).
Proof.
  intros caps args w d.
  assert (Hfst : fst (run_action args w) = Return d) by (vm_compute; reflexivity).
  split; [exact Hfst|].
  assert (Hrun : run_action args w = (Return d, snd (run_action args w))).
  { rewrite <- Hfst. apply surjective_pairing. }
  destruct (load_counts args w (snd (run_action args w)) d eq_refl Hrun)
    as (documents & downloaded & _ & Hlen & _ & Hlocal & _).
  exists downloaded. split; [exact Hlen|exact Hlocal].
Defined.

(** X19. An index that one chatbot saves at a path goes to any chatbot
    that loads from that path: whatever index and chain it held, it now
    holds the index that the stored blob deserializes to and a chain over
    that index that retrieves 5 chunks; its memory is kept and one line
    is printed. Saving writes at its own path only, and a chatbot without
    index saves nothing. *)
Theorem saved_index_is_loaded `{Capabilities} (path : string) (w1 w2 : World)
    (ix ix' : Index) :
  vectorstore (self w1) = Some ix ->
  disk w2 !! path = disk (snd (save_vectorstore path w1)) !! path ->
  deserialize (serialize ix) = Ok ix' ->
  load_vectorstore path w2
  = (Return tt,
     mkWorld (set_qa_chain (Some (mkChain ix' 5))
                (set_vectorstore (Some ix') (self w2)))
             (files w2) (disk w2)
             (stdout w2 ++ [Line ("📚 Vector store loaded from " +:+ path)]))
  /\ (forall p, p <> path ->
        disk (snd (save_vectorstore path w1)) !! p = disk w1 !! p)
  /\ (forall w, vectorstore (self w) = None ->
        save_vectorstore path w = (Return tt, w)).
Proof.
  intros Hvs Hdisk Hblob.
  unfold save_vectorstore, bind, get_self in Hdisk |- *.
  rewrite Hvs in Hdisk |- *. cbn in Hdisk |- *.
  rewrite lookup_insert_eq in Hdisk.
  split; [|split].
  - unfold load_vectorstore, try_except, bind, load_local.
    rewrite Hdisk, Hblob. reflexivity.
  - intros p Hp. by rewrite lookup_insert_ne.
  - intros w Hnone. by rewrite Hnone.
Qed.

Lemma saved_index_is_loaded_witness :
  let caps := sample_caps answering_model ∅ in
  let w1 := mkWorld (sample_chatbot (Some sample_index)) ∅ ∅ [] in
  let w2 := mkWorld (sample_chatbot None) ∅ (disk (snd (save_vectorstore "idx" w1))) [] in
  vectorstore (self w1) = Some sample_index
  /\ vectorstore (self w2) = None
  /\ deserialize (serialize sample_index) = Ok sample_index
  /\ load_vectorstore "idx" w2
     = (Return tt,
        mkWorld (sample_chatbot (Some sample_index)) ∅ (disk w2)
                [Line "📚 Vector store loaded from idx"]).
Proof.
  intros caps w1 w2. split; [reflexivity|]. split; [reflexivity|].
  split; [reflexivity|].
  exact (proj1 (saved_index_is_loaded "idx" w1 w2 sample_index sample_index
                  eq_refl eq_refl eq_refl)).
Defined.

(** ** A conversation that is never recorded *)

Section HistoryFacts.

Context `{Capabilities}.

(** A query leaves the chatbot as it found it. *)
Lemma query_keeps_chatbot (question : string) (w : World) :
  self (snd (query question w)) = self w.
Proof.
  unfold query, bind, get_self.
  destruct (qa_chain (self w)) as [ch|]; [|done].
  unfold try_except, bind, chain_call.
  destruct (retrieve _ _ _) as [records|cls msg]; cbn;
    [|apply set_memory_same].
  destruct (llm _) as [answer|cls msg]; cbn; apply set_memory_same.
Qed.

(** A call leaves the turns of the memory as they are, or leaves none. *)
Lemma after_memory (m : method) (w : World) :
  Memory.window (memory (self (after m w))) = Memory.window (memory (self w))
  \/ Memory.window (memory (self (after m w))) = [].
Proof.
  destruct m as [fps s3|docs|q| |path|path|b pre n|s3 d]; cbn [after].
  - left. by rewrite keeps_self_load_documents.
  - left. destruct docs as [|d docs]; [done|].
    destruct (process_documents_result (d :: docs) w ltac:(done)) as [line ->].
    by destruct (from_documents _).
  - left. by rewrite query_keeps_chatbot.
  - by right.
  - left. by rewrite save_vectorstore_self.
  - left. unfold load_vectorstore, try_except, bind, load_local.
    destruct (disk w !! path) as [b|]; cbn; [|done].
    by destruct (deserialize b).
  - left. by rewrite list_s3_objects_self.
  - left. by rewrite keeps_self_download_from_s3.
Qed.

End HistoryFacts.

(** X20. No query returns an answer: in every state of the chatbot
    [query] returns a dictionary with an "error" entry, without
    "question" entry and with an empty evidence list, and it leaves the
    chatbot, its memory included, as it was. Without a chain this is the
    request to upload documents; with a chain the call fails at the
    latest when the turn is saved, the memory having no output key for a
    chain that returns its source documents. *)
Theorem query_never_answers `{Capabilities} (question : string) (w : World) :
  exists d,
    fst (query question w) = Return d
    /\ dict_has d "error" = true
    /\ dict_has d "question" = false
    /\ dict_get d "sources" = Some (VSources [])
    /\ self (snd (query question w)) = self w.
Proof.
  pose proof (query_keeps_chatbot question w) as Hself. revert Hself.
  unfold query, bind, get_self.
  destruct (qa_chain (self w)) as [ch|]; [|by eexists].
  unfold try_except, bind, chain_call.
  destruct (retrieve _ _ _) as [records|cls msg]; cbn; [|by eexists].
  destruct (llm _) as [answer|cls msg]; cbn; by eexists.
Qed.

(** X21. The conversation is never recorded: whatever methods are called
    on a chatbot whose memory is empty, as it is when the chatbot is
    created, its memory is empty afterwards. *)
Theorem history_stays_empty `{Capabilities} (calls : list method) (w : World) :
  Memory.window (memory (self w)) = [] ->
  Memory.window (memory (self (after_all calls w))) = [].
Proof.
  revert w. induction calls as [|m calls IH]; intros w Hempty; [done|].
  cbn [after_all fold_left]. apply IH.
  destruct (after_memory m w) as [Hsame|Hnone]; [by rewrite Hsame|done].
Qed.

Lemma history_stays_empty_witness :
  let caps := sample_caps answering_model ∅ in
  let w := mkWorld (sample_chatbot (Some sample_index)) ∅ ∅ [] in
  let calls := [CallQuery "first"; CallProcessDocuments [mkDocument "text" ∅];
                CallQuery "second"; CallSave "idx"; CallLoad "idx";
                CallQuery "third"] in
  Memory.window (memory (self w)) = []
  /\ Memory.window (memory (self (after_all calls w))) = [].
Proof.
  intros caps w calls. split; [reflexivity|].
  exact (history_stays_empty calls w eq_refl).
Defined.
